(** * AllVideoSaver backend: a model of [app.py] and its specification

    The Flask application of [AllVideoSaverTemp/app.py] is embedded function
    by function.  Python strings are lists of code points, dictionaries are
    finite maps, exceptions are an explicit result type, and the effects of
    the two request handlers (calls into [yt_dlp], log lines, the clean-up
    thread) are written to a trace. *)

From Stdlib Require Import ZArith NArith Lia Sorted Permutation.
From Stdlib Require Import Strings.String Strings.Ascii.
From stdpp Require Import base list sorting gmap.

#[local] Set Warnings "-register-all".
#[local] Open Scope Z_scope.

(** ** Python strings *)

(** A [str] is a sequence of Unicode code points. *)
Abbreviation pystr := (list N).

(** String literals of the source, written as Rocq strings. *)
Definition lit (s : string) : pystr := map N_of_ascii (list_ascii_of_string s).

Definition chr (a : ascii) : N := N_of_ascii a.

(** [str.isspace] on one code point, the characters [str.strip()] removes
    (CPython's [_PyUnicode_IsWhitespace]). *)
Definition is_space (c : N) : bool :=
  ((9 <=? c) && (c <=? 13) || (28 <=? c) && (c <=? 32)
   || (c =? 133) || (c =? 160) || (c =? 5760)
   || (8192 <=? c) && (c <=? 8202)
   || (c =? 8232) || (c =? 8233) || (c =? 8239) || (c =? 8287)
   || (c =? 12288))%N.

Fixpoint lstrip (s : pystr) : pystr :=
  match s with
  | c :: s' => if is_space c then lstrip s' else s
  | [] => []
  end.

Fixpoint rstrip (s : pystr) : pystr :=
  match s with
  | c :: s' =>
      match rstrip s' with
      | [] => if is_space c then [] else [c]
      | r => c :: r
      end
  | [] => []
  end.

(** [s.strip()] *)
Definition strip (s : pystr) : pystr := rstrip (lstrip s).

Fixpoint starts_with (p s : pystr) : bool :=
  match p, s with
  | [], _ => true
  | a :: p', b :: s' => (a =? b)%N && starts_with p' s'
  | _ :: _, [] => false
  end.

(** [sub in s] for two strings. *)
Fixpoint contains (sub s : pystr) : bool :=
  starts_with sub s ||
  match s with
  | [] => false
  | _ :: s' => contains sub s'
  end.

(** The scan of [str.replace] for a non-empty pattern: [skip] counts the
    characters of a match that are still to be passed over. *)
Fixpoint replace_from (old new : pystr) (skip : nat) (s : pystr) : pystr :=
  match s with
  | [] => []
  | c :: s' =>
      match skip with
      | S k => replace_from old new k s'
      | O =>
          if starts_with old s
          then new ++ replace_from old new (length old - 1) s'
          else c :: replace_from old new 0 s'
      end
  end.

(** [s.replace(old, new)]: every non-overlapping occurrence, leftmost
    first; an empty pattern matches before every character and at the end. *)
Definition str_replace (old new s : pystr) : pystr :=
  match old with
  | [] => new ++ flat_map (fun c => c :: new) s
  | _ :: _ => replace_from old new 0 s
  end.

(** The split of [s.rsplit(sep, 1)] at the last [sep], for a one-character
    separator: [None] when [sep] does not occur. *)
Fixpoint rsplit_last (sep : N) (s : pystr) : option (pystr * pystr) :=
  match s with
  | [] => None
  | c :: s' =>
      match rsplit_last sep s' with
      | Some (a, b) => Some (c :: a, b)
      | None => if (c =? sep)%N then Some ([], s') else None
      end
  end.

(** [s.rsplit(sep, 1)] *)
Definition rsplit1 (sep : N) (s : pystr) : list pystr :=
  match rsplit_last sep s with
  | Some (a, b) => [a; b]
  | None => [s]
  end.

(** ** Integers and their decimal text *)

Definition digit (d : Z) : N := Z.to_N (48 + d).

Fixpoint digits_fuel (fuel : nat) (n : Z) : pystr :=
  match fuel with
  | O => []
  | S f =>
      if n <? 10 then [digit n]
      else digits_fuel f (n / 10) ++ [digit (n mod 10)]
  end.

(** Decimal digits of a natural number. *)
Definition str_nat (n : Z) : pystr := digits_fuel (S (Z.to_nat (Z.log2 n))) n.

(** [str(z)] for an [int] (the interpreter's configurable limit on the
    number of digits is not modelled). *)
Definition str_int (z : Z) : pystr :=
  if z <? 0 then chr "-" :: str_nat (- z) else str_nat z.

(** [format(z, '02d')]: zero fill to width 2, the sign counted in the
    width and placed before the zeros. *)
Definition format_02d (z : Z) : pystr :=
  let ds := str_nat (Z.abs z) in
  if z <? 0 then chr "-" :: replicate (1 - length ds)%nat (chr "0") ++ ds
  else replicate (2 - length ds)%nat (chr "0") ++ ds.

(** An ASCII digit. *)
Definition is_digit (c : N) : bool := ((48 <=? c) && (c <=? 57))%N.

(** The decimal digits [int()] reads are those of every script.  In
    Unicode 14.0 (the table of Python 3.11) they come in 66 runs of ten
    consecutive code points with the values 0 to 9; these are the first
    code points of the runs, ASCII first. *)
Definition decimal_zeros : list N :=
  [48; 1632; 1776; 1984; 2406; 2534; 2662; 2790; 2918; 3046; 3174; 3302;
   3430; 3558; 3664; 3792; 3872; 4160; 4240; 6112; 6160; 6470; 6608; 6784;
   6800; 6992; 7088; 7232; 7248; 42528; 43216; 43264; 43472; 43504; 43600;
   44016; 65296; 66720; 68912; 69734; 69872; 69942; 70096; 70384; 70736;
   70864; 71248; 71360; 71472; 71904; 72016; 72784; 73040; 73120; 92768;
   92864; 93008; 120782; 120792; 120802; 120812; 120822; 123200; 123632;
   125264; 130032]%N.

(** The value of a decimal digit; [None] for any other character. *)
Definition decimal_value (c : N) : option Z :=
  match find (fun zero => (zero <=? c) && (c <? zero + 10))%N decimal_zeros with
  | Some zero => Some (Z.of_N (c - zero))
  | None => None
  end.

(** The whitespace [int()] skips around the number: that of [str.strip()]
    without the four separators U+001C to U+001F. *)
Definition is_int_space (c : N) : bool :=
  is_space c && negb ((28 <=? c) && (c <=? 31))%N.

Fixpoint lstrip_by (space : N -> bool) (s : pystr) : pystr :=
  match s with
  | c :: s' => if space c then lstrip_by space s' else s
  | [] => []
  end.

Fixpoint rstrip_by (space : N -> bool) (s : pystr) : pystr :=
  match s with
  | c :: s' =>
      match rstrip_by space s' with
      | [] => if space c then [] else [c]
      | r => c :: r
      end
  | [] => []
  end.

(** Digits of an integer literal after the first one; an underscore may
    separate two digits. *)
Fixpoint parse_digits (acc : Z) (after_underscore : bool) (s : pystr) : option Z :=
  match s with
  | [] => if after_underscore then None else Some acc
  | c :: s' =>
      match decimal_value c with
      | Some d => parse_digits (acc * 10 + d) false s'
      | None =>
          if (c =? chr "_")%N && negb after_underscore then parse_digits acc true s'
          else None
      end
  end.

Definition parse_unsigned (s : pystr) : option Z :=
  match s with
  | c :: s' =>
      match decimal_value c with
      | Some d => parse_digits d false s'
      | None => None
      end
  | [] => None
  end.

(** [int(s)] for a string, base 10: surrounding whitespace, a sign, decimal
    digits with single underscores between them; [None] stands for
    [ValueError]. *)
Definition py_int (s : pystr) : option Z :=
  match rstrip_by is_int_space (lstrip_by is_int_space s) with
  | c :: r =>
      if (c =? chr "-")%N then Z.opp <$> parse_unsigned r
      else if (c =? chr "+")%N then parse_unsigned r
      else parse_unsigned (c :: r)
  | [] => None
  end.

(** ** Values *)

(** A [float], described by the two things this program can observe of
    it: whether it equals zero (its truth value; [nan] does not) and the
    text [str()] gives for it. *)
Record float_value := {
  float_is_zero : bool;
  float_text : pystr
}.

(** The scalar values that occur in request bodies and in extractor
    metadata. *)
Inductive scalar :=
| SNone
| SBool (b : bool)
| SInt (z : Z)
| SFloat (f : float_value)
| SStr (s : pystr).

(** Truth value of a scalar, as [if x:] and [not x] take it. *)
Definition truthy (v : scalar) : bool :=
  match v with
  | SNone => false
  | SBool b => b
  | SInt z => negb (z =? 0)
  | SFloat f => negb (float_is_zero f)
  | SStr s => match s with [] => false | _ => true end
  end.

(** [str(v)], which an f-string field [{v}] inserts. *)
Definition py_str (v : scalar) : pystr :=
  match v with
  | SNone => lit "None"
  | SBool true => lit "True"
  | SBool false => lit "False"
  | SInt z => str_int z
  | SFloat f => float_text f
  | SStr s => s
  end.

(** The integer behind a value in arithmetic ([bool] is a subclass of
    [int]). *)
Definition as_int (v : scalar) : option Z :=
  match v with
  | SInt z => Some z
  | SBool b => Some (if b then 1 else 0)
  | _ => None
  end.

Definition pystr_eqb (a b : pystr) : bool := bool_decide (a = b).

(** [v == s] for a string literal [s]. *)
Definition eq_str (v : scalar) (s : pystr) : bool :=
  match v with
  | SStr t => pystr_eqb t s
  | _ => false
  end.


#[global] Instance float_value_eq_dec : EqDecision float_value.
Proof. solve_decision. Defined.

#[global] Instance scalar_eq_dec : EqDecision scalar.
Proof. solve_decision. Defined.

(** Nested values: the JSON documents the handlers send and the option
    dictionaries they hand to [yt_dlp]. *)
Inductive json :=
| JVal (v : scalar)
| JArr (l : list json)
| JObj (d : gmap pystr json).

(** The value [request.get_json()] returns: a scalar ([None] when there is
    no body), a list or a dictionary of scalars. *)
Inductive pyval :=
| VScalar (v : scalar)
| VList (l : list scalar)
| VDict (d : gmap pystr scalar).

(** The metadata dictionary [extract_info] returns: scalar entries such as
    ['title'] and ['duration'], and under ['formats'], when that key is
    present, a list of format dictionaries. *)
Record info_dict := {
  info_fields : gmap pystr scalar;
  info_formats : option (list (gmap pystr scalar))
}.

(** ** Exceptions, results and effects *)

(** Exceptions, all of them subclasses of [Exception]: the four the
    interpreter raises in this program, and [Failure] for whatever is
    raised inside [yt_dlp], [flask] or [os], with its class name and the
    text [str(e)] gives. *)
Inductive exn :=
| TypeError
| AttributeError
| ValueError
| KeyError (key : pystr)
| Failure (class message : pystr).

Inductive res (A : Type) :=
| Ok (a : A)
| Raise (e : exn).
Arguments Ok {A} a.
Arguments Raise {A} e.

Inductive log_level := INFO | WARNING | ERROR.

Inductive event :=
| Extract (ydl_opts : gmap pystr json) (url : pystr) (download : bool)
| PrepareFilename (ydl_opts : gmap pystr json)
| SendFile (path : pystr)
| Log (level : log_level) (message : pystr)
| ThreadStart (path : pystr) (delay : Z)
| Sleep (seconds : Z)
| Remove (path : pystr).

(** A computation: the events it performs, in order, and how it ends. *)
Definition M (A : Type) : Type := list event * res A.

Definition ret {A} (a : A) : M A := ([], Ok a).

Definition bind {A B} (m : M A) (k : A -> M B) : M B :=
  match m with
  | (t, Ok a) => let '(t', r) := k a in (t ++ t', r)
  | (t, Raise e) => (t, Raise e)
  end.

Definition lift {A} (r : res A) : M A := ([], r).

Definition emit (ev : event) : M unit := ([ev], Ok tt).

(** [try: body  except Exception as e: handler(e)] *)
Definition try_except {A} (body : M A) (handler : exn -> M A) : M A :=
  match body with
  | (t, Ok a) => (t, Ok a)
  | (t, Raise e) => let '(t', r) := handler e in (t ++ t', r)
  end.

#[global] Instance M_ret : MRet M := @ret.
#[global] Instance M_bind : MBind M := fun A B k m => bind m k.

(** What the handlers do not decide themselves: the extraction library
    ([extract_info] and [prepare_filename] of a [YoutubeDL] built from the
    given options), Flask's [send_file], the identifier [uuid.uuid4().hex]
    drawn for the request, and the pieces of the Python runtime that depend
    on the platform or its version ([os.path.join], [str.lower], the message
    text of the interpreter's own exceptions). *)
Record env := {
  extract_info : gmap pystr json -> pystr -> bool -> res info_dict;
  prepare_filename : gmap pystr json -> info_dict -> res pystr;
  send_file : pystr -> res unit;
  uuid4_hex : pystr;
  os_path_join : pystr -> pystr -> pystr;
  str_lower : pystr -> pystr;
  builtin_message : exn -> pystr
}.

(** The file system the clean-up thread meets. *)
Record filesystem := {
  os_path_exists : pystr -> bool;
  os_remove : pystr -> res unit
}.

(** [str(e)] *)
Definition str_exn (w : env) (e : exn) : pystr :=
  match e with
  | Failure _ message => message
  | _ => builtin_message w e
  end.

(** ** Operations on the request body *)

(** [bool(data)]: empty containers are false. *)
Definition truthy_val (data : pyval) : bool :=
  match data with
  | VScalar v => truthy v
  | VList l => match l with [] => false | _ => true end
  | VDict d => negb (bool_decide (d = ∅))
  end.

(** [key in data] *)
Definition py_in (key : pystr) (data : pyval) : res bool :=
  match data with
  | VDict d => Ok (bool_decide (is_Some (d !! key)))
  | VList l => Ok (existsb (fun v => eq_str v key) l)
  | VScalar (SStr s) => Ok (contains key s)
  | VScalar _ => Raise TypeError
  end.

(** [data[key]] for a string [key] *)
Definition py_getitem (data : pyval) (key : pystr) : res scalar :=
  match data with
  | VDict d =>
      match d !! key with
      | Some v => Ok v
      | None => Raise (KeyError key)
      end
  | _ => Raise TypeError
  end.

(** [data.get(key, dflt)] *)
Definition py_get (data : pyval) (key : pystr) (dflt : scalar) : res scalar :=
  match data with
  | VDict d => Ok (default dflt (d !! key))
  | _ => Raise AttributeError
  end.

(** [v.strip()] *)
Definition py_strip (v : scalar) : res pystr :=
  match v with
  | SStr s => Ok (strip s)
  | _ => Raise AttributeError
  end.

(** ** Configuration *)

Definition DOWNLOAD_FOLDER : pystr := lit "D:\AllVideoSaverTemp".
Definition FFMPEG_PATH : pystr := lit "D:\ffmpeg-8.0".

(** ** Helper functions *)

(** The nine characters of [invalid_chars]; code point 34 is the double
    quote. *)
Definition invalid_chars : pystr := lit "<>:" ++ [34%N] ++ lit "/\|?*".

Definition sanitize_filename (filename : pystr) : pystr :=
  let filename :=
    fold_left (fun filename char => str_replace [char] (lit "_") filename)
              invalid_chars filename in
  take 100 filename.

(** For a [float] the three divisions give floats again, and both
    f-strings format the last of them with [02d], which raises
    [ValueError] for a float whatever its value.  A [str] has no [//]
    with an [int]: [TypeError]. *)
Definition format_duration (seconds : scalar) : res pystr :=
  if negb (truthy seconds) then Ok (lit "Unknown")
  else
    match seconds with
    | SFloat _ => Raise ValueError
    | _ =>
        match as_int seconds with
        | None => Raise TypeError
        | Some seconds =>
            let hours := seconds / 3600 in
            let minutes := (seconds mod 3600) / 60 in
            let seconds := seconds mod 60 in
            Ok (if negb (hours =? 0)
                then str_int hours ++ lit ":" ++ format_02d minutes ++ lit ":"
                     ++ format_02d seconds
                else str_int minutes ++ lit ":" ++ format_02d seconds)
        end
    end.

Definition detect_platform (w : env) (extractor : scalar) : res pystr :=
  match extractor with
  | SStr extractor =>
      let extractor_lower := str_lower w extractor in
      Ok (if contains (lit "tiktok") extractor_lower then lit "tiktok"
          else if contains (lit "youtube") extractor_lower then lit "youtube"
          else if contains (lit "facebook") extractor_lower then lit "facebook"
          else if contains (lit "instagram") extractor_lower then lit "instagram"
          else if contains (lit "twitter") extractor_lower then lit "twitter"
          else extractor_lower)
  | _ => Raise AttributeError
  end.

(** One entry of the list [get_available_formats] returns, a dictionary
    with these four keys. *)
Record format_entry := {
  quality : pystr;
  format_note : scalar;
  ext : scalar;
  filesize : scalar
}.

(** The dictionary appended for a format [fmt] whose height is set. *)
Definition entry_of (fmt : gmap pystr scalar) : format_entry :=
  {| quality := py_str (default SNone (fmt !! lit "height")) ++ lit "p";
     format_note := default (SStr (lit "")) (fmt !! lit "format_note");
     ext := default (SStr (lit "")) (fmt !! lit "ext");
     filesize := default SNone (fmt !! lit "filesize") |}.

(** First loop: the formats with a height, in order. *)
Definition collect_formats (fmts : list (gmap pystr scalar)) : list format_entry :=
  fold_left
    (fun formats fmt =>
       if truthy (default SNone (fmt !! lit "height"))
       then formats ++ [entry_of fmt]
       else formats)
    fmts [].

(** Second loop: [seen] and [unique_formats] after each format. *)
Definition unique_step (st : gset pystr * list format_entry) (fmt : format_entry)
  : gset pystr * list format_entry :=
  let '(seen, unique_formats) := st in
  if bool_decide (quality fmt ∈ seen) then st
  else ({[quality fmt]} ∪ seen, unique_formats ++ [fmt]).

Definition unique_loop (formats : list format_entry) : list format_entry :=
  snd (fold_left unique_step formats (∅, [])).

(** The sort key [int(x['quality'].replace('p', ''))]. *)
Definition sort_key (x : format_entry) : res Z :=
  match py_int (str_replace (lit "p") (lit "") (quality x)) with
  | Some k => Ok k
  | None => Raise ValueError
  end.

(** The keys of all elements, computed front to back; the first failure
    is raised. *)
Fixpoint keys_of {A} (key : A -> res Z) (l : list A) : res (list (Z * A)) :=
  match l with
  | [] => Ok []
  | x :: l' =>
      match key x with
      | Raise e => Raise e
      | Ok k =>
          match keys_of key l' with
          | Raise e => Raise e
          | Ok kl => Ok ((k, x) :: kl)
          end
      end
  end.

(** Place an element that came before all of [l] into [l], sorted by
    decreasing key: it goes in front of the elements with an equal key. *)
Fixpoint insert_desc {A} (k : Z) (x : A) (l : list (Z * A)) : list (Z * A) :=
  match l with
  | [] => [(k, x)]
  | (k', y) :: l' =>
      if k <? k' then (k', y) :: insert_desc k x l' else (k, x) :: l
  end.

(** [sorted(l, key=key, reverse=True)]: a stable sort, elements with equal
    keys keep their order.  [sort_desc] sorts the list of (key, element). *)
Definition sort_desc {A} (kl : list (Z * A)) : list (Z * A) :=
  fold_right (fun kx acc => insert_desc (fst kx) (snd kx) acc) [] kl.

Definition sorted_reverse {A} (key : A -> res Z) (l : list A) : res (list A) :=
  match keys_of key l with
  | Raise e => Raise e
  | Ok kl => Ok (snd <$> sort_desc kl)
  end.

Definition get_available_formats (info : info_dict) : res (list format_entry) :=
  let formats :=
    match info_formats info with
    | Some fmts => collect_formats fmts
    | None => []
    end in
  let unique_formats := unique_loop formats in
  sorted_reverse sort_key unique_formats.

Definition get_format_selector (quality : scalar) : pystr :=
  if eq_str quality (lit "audio") then lit "bestaudio/best"
  else if eq_str quality (lit "360") then lit "best[height<=360]/best"
  else if eq_str quality (lit "720") then lit "best[height<=720]/best"
  else if eq_str quality (lit "1080") then lit "best[height<=1080]/best"
  else lit "bestvideo+bestaudio/best".

(** The body of the clean-up thread, for a delay that is not negative
    (the program passes 60; [time.sleep] refuses a negative one). *)
Definition _cleanup (w : env) (fs : filesystem) (path : pystr) (delay : Z) : M unit :=
  emit (Sleep delay);;
  try_except
    (if os_path_exists fs path
     then emit (Remove path);; lift (os_remove fs path)
     else ret tt)
    (fun e =>
       emit (Log WARNING (lit "Could not delete file " ++ path ++ lit ": " ++ str_exn w e))).

(** [delayed_cleanup(path, delay=60)] starts the thread and returns; the
    thread runs [_cleanup] with this [path] and [delay]. *)
Definition delayed_cleanup (path : pystr) (delay : option Z) : M unit :=
  let delay := default 60 delay in
  emit (ThreadStart path delay).

(** ** Routes *)

(** What a handler returns to Flask. *)
Inductive response :=
| Json (body : json) (status : Z)                      (* jsonify(body), status *)
| Attachment (path download_name mimetype : pystr).    (* send_file(..., as_attachment=True) *)

Definition jstr (s : pystr) : json := JVal (SStr s).

(** [{'error': message}] *)
Definition error_body (message : pystr) : json :=
  JObj {[ lit "error" := jstr message ]}.

Definition entry_json (e : format_entry) : json :=
  JObj (<[lit "quality" := jstr (quality e)]>
        (<[lit "format_note" := JVal (format_note e)]>
         (<[lit "ext" := JVal (ext e)]>
          {[ lit "filesize" := JVal (filesize e) ]}))).

(** [ydl.extract_info(url, download=...)] inside
    [with yt_dlp.YoutubeDL(ydl_opts) as ydl]. *)
Definition ydl_extract_info (w : env) (ydl_opts : gmap pystr json)
    (url : pystr) (download : bool) : M info_dict :=
  emit (Extract ydl_opts url download);;
  lift (extract_info w ydl_opts url download).

Definition ydl_prepare_filename (w : env) (ydl_opts : gmap pystr json)
    (info : info_dict) : M pystr :=
  emit (PrepareFilename ydl_opts);;
  lift (prepare_filename w ydl_opts info).

(** [info[key]] *)
Definition info_getitem (info : info_dict) (key : pystr) : res scalar :=
  match info_fields info !! key with
  | Some v => Ok v
  | None => Raise (KeyError key)
  end.

(** [sanitize_filename(title)] for whatever [title] is: only a [str] has
    [replace]. *)
Definition call_sanitize_filename (title : scalar) : res pystr :=
  match title with
  | SStr s => Ok (sanitize_filename s)
  | _ => Raise AttributeError
  end.

(** The [ydl_opts] of [fetch_video_info]. *)
Definition fetch_ydl_opts : gmap pystr json :=
  <[lit "quiet" := JVal (SBool true)]>
  (<[lit "no_warnings" := JVal (SBool false)]>
   (<[lit "extract_flat" := JVal (SBool false)]>
    {[ lit "ffmpeg_location" := jstr FFMPEG_PATH ]})).

(** The [ydl_opts] of [download_video], with the post-processor entry
    added for audio. *)
Definition download_ydl_opts (filepath : pystr) (quality : scalar) : gmap pystr json :=
  let ydl_opts : gmap pystr json :=
    <[lit "outtmpl" := jstr (filepath ++ lit ".%(ext)s")]>
    (<[lit "format" := jstr (get_format_selector quality)]>
     {[ lit "ffmpeg_location" := jstr FFMPEG_PATH ]}) in
  if eq_str quality (lit "audio")
  then <[lit "postprocessors" :=
           JArr [JObj (<[lit "key" := jstr (lit "FFmpegExtractAudio")]>
                       (<[lit "preferredcodec" := jstr (lit "mp3")]>
                        {[ lit "preferredquality" := jstr (lit "192") ]}))]]>
         ydl_opts
  else ydl_opts.

(** The [try] block of [fetch_video_info]. *)
Definition fetch_video_info_try (w : env) (ydl_opts : gmap pystr json) (url : pystr)
  : M response :=
  info ← ydl_extract_info w ydl_opts url false;
  let title := default (SStr (lit "Unknown Title")) (info_fields info !! lit "title") in
  duration ← lift (format_duration (default (SInt 0) (info_fields info !! lit "duration")));
  let thumbnail := default (SStr (lit "")) (info_fields info !! lit "thumbnail") in
  platform ← lift (detect_platform w (default (SStr (lit "")) (info_fields info !! lit "extractor")));
  formats ← lift (get_available_formats info);
  let video_info : gmap pystr json :=
    <[lit "title" := JVal title]>
    (<[lit "duration" := jstr duration]>
     (<[lit "thumbnail" := JVal thumbnail]>
      (<[lit "platform" := jstr platform]>
       {[ lit "formats" := JArr (entry_json <$> formats) ]}))) in
  emit (Log INFO (lit "Fetched info: " ++ py_str title));;
  ret (Json (JObj video_info) 200).

(** Its [except Exception as e] block. *)
Definition fetch_video_info_except (w : env) (e : exn) : M response :=
  emit (Log ERROR (lit "Error fetching info: " ++ str_exn w e));;
  ret (Json (error_body (str_exn w e)) 500).

(** [fetch_video_info] after [data = request.get_json()], for the value
    [data] that call returned. *)
Definition fetch_video_info (w : env) (data : pyval) : M response :=
  if negb (truthy_val data) then ret (Json (error_body (lit "No URL provided")) 400)
  else
    has_url ← lift (py_in (lit "url") data);
    if negb has_url then ret (Json (error_body (lit "No URL provided")) 400)
    else
      v ← lift (py_getitem data (lit "url"));
      url ← lift (py_strip v);
      if bool_decide (url = []) then ret (Json (error_body (lit "Empty URL provided")) 400)
      else
        let ydl_opts := fetch_ydl_opts in
        try_except (fetch_video_info_try w ydl_opts url) (fetch_video_info_except w).

(** The [try] block of [download_video]. *)
Definition download_video_try (w : env) (ydl_opts : gmap pystr json) (url : pystr)
    (quality : scalar) : M response :=
  info ← ydl_extract_info w ydl_opts url true;
  downloaded_file ← ydl_prepare_filename w ydl_opts info;
  names ←
    (if eq_str quality (lit "audio")
     then
       let downloaded_file :=
         default [] (rsplit1 (chr ".") downloaded_file !! 0%nat) ++ lit ".mp3" in
       title ← lift (info_getitem info (lit "title"));
       name ← lift (call_sanitize_filename title);
       ret (downloaded_file, name ++ lit ".mp3")
     else
       title ← lift (info_getitem info (lit "title"));
       name ← lift (call_sanitize_filename title);
       ret (downloaded_file, name ++ lit "_" ++ py_str quality ++ lit "p.mp4"));
  let downloaded_file := fst names in
  let download_name := snd names in
  title ← lift (info_getitem info (lit "title"));
  emit (Log INFO (lit "Downloaded: " ++ py_str title));;
  delayed_cleanup downloaded_file (Some 60);;
  emit (SendFile downloaded_file);;
  lift (send_file w downloaded_file);;
  ret (Attachment downloaded_file download_name
         (if negb (eq_str quality (lit "audio")) then lit "video/mp4" else lit "audio/mpeg")).

(** Its [except Exception as e] block. *)
Definition download_video_except (w : env) (e : exn) : M response :=
  emit (Log ERROR (lit "Download error: " ++ str_exn w e));;
  ret (Json (error_body (str_exn w e)) 500).

(** [download_video] after [data = request.get_json()], for the value
    [data] that call returned. *)
Definition download_video (w : env) (data : pyval) : M response :=
  if negb (truthy_val data) then ret (Json (error_body (lit "No URL provided")) 400)
  else
    has_url ← lift (py_in (lit "url") data);
    if negb has_url then ret (Json (error_body (lit "No URL provided")) 400)
    else
      v ← lift (py_getitem data (lit "url"));
      url ← lift (py_strip v);
      quality ← lift (py_get data (lit "quality") (SStr (lit "720")));
      if bool_decide (url = []) then ret (Json (error_body (lit "Empty URL provided")) 400)
      else
        let filename := lit "allvideosaver_" ++ uuid4_hex w in
        let filepath := os_path_join w DOWNLOAD_FOLDER filename in
        let ydl_opts := download_ydl_opts filepath quality in
        try_except (download_video_try w ydl_opts url quality) (download_video_except w).

(** The request as a view function sees it: the value
    [request.get_json()] returns, or the exception it raises (Flask's
    [BadRequest] for a body that is not JSON, [UnsupportedMediaType] for a
    content type that is not JSON). *)
Record flask_request := {
  get_json : res pyval
}.

(** The view function of [/api/fetch-info] from its first statement,
    [data = request.get_json()], which stands outside the [try]; the
    statements after it are [fetch_video_info] above. *)
Definition fetch_video_info_view (w : env) (request : flask_request) : M response :=
  data ← lift (get_json request);
  fetch_video_info w data.

(** The view function of [/api/download], in the same way. *)
Definition download_video_view (w : env) (request : flask_request) : M response :=
  data ← lift (get_json request);
  download_video w data.

(** The clean-up threads a run has started, as (path, delay). *)
Definition threads_started (trace : list event) : list (pystr * Z) :=
  omap (fun ev => match ev with ThreadStart p d => Some (p, d) | _ => None end) trace.

(** A request from arrival to the end of its clean-up threads: the
    handler returns its response, the threads run afterwards. *)
Definition serve (handler : env -> pyval -> M response) (w : env) (fs : filesystem)
    (data : pyval) : res response * list event * list (M unit) :=
  let '(trace, r) := handler w data in
  (r, trace, (fun pd => _cleanup w fs (fst pd) (snd pd)) <$> threads_started trace).

(** ** Sample collaborators, for the examples below *)

Definition sample_info : info_dict :=
  {| info_fields :=
       <[lit "title" := SStr (lit "My: clip?")]>
       (<[lit "duration" := SInt 3661]>
        {[ lit "extractor" := SStr (lit "youtube") ]});
     info_formats := None |}.

Definition sample_env : env :=
  {| extract_info := fun _ url _ =>
       if contains (lit "bad") url
       then Raise (Failure (lit "DownloadError") (lit "Unsupported URL"))
       else Ok sample_info;
     prepare_filename := fun opts _ =>
       match opts !! lit "outtmpl" with
       | Some (JVal (SStr t)) => Ok (str_replace (lit "%(ext)s") (lit "webm") t)
       | _ => Raise TypeError
       end;
     send_file := fun _ => Ok tt;
     uuid4_hex := lit "0123456789abcdef0123456789abcdef";
     os_path_join := fun a b => a ++ lit "\" ++ b;
     str_lower := fun s => s;
     builtin_message := fun _ => lit "error" |}.

Definition body (l : list (string * scalar)) : pyval :=
  VDict (list_to_map ((fun kv => (lit (fst kv), snd kv)) <$> l)).

Definition audio_request : pyval :=
  body [("url"%string, SStr (lit "http://x/")); ("quality"%string, SStr (lit "audio"))].

Definition video_request : pyval :=
  body [("url"%string, SStr (lit "http://x/"))].


(** ** Vocabulary of the specification *)

(** A number below 100 written with exactly two decimal digits. *)
Definition two_digits (x : Z) : pystr := [digit (x / 10); digit (x mod 10)].

(** The fall-back of the format selector. *)
Definition best_video_audio : pystr := lit "bestvideo+bestaudio/best".

(** The selector bounded by a maximal height, given as text. *)
Definition bounded_height (height : pystr) : pystr :=
  lit "best[height<=" ++ height ++ lit "]/best".

(** The label of a height, ['{height}p']. *)
Definition label (height : Z) : pystr := str_int height ++ lit "p".

(** A format dictionary as the extractor documents it: the height is an
    [int], is [None], or is missing. *)
Definition int_height (fmt : gmap pystr scalar) : Prop :=
  match fmt !! lit "height" with
  | None | Some SNone | Some (SInt _) => True
  | Some _ => False
  end.

(** A format with a known height: the entry is set and is not zero. *)
Definition known_height (fmt : gmap pystr scalar) : Prop :=
  truthy (default SNone (fmt !! lit "height")) = true.

#[global] Instance known_height_dec fmt : Decision (known_height fmt).
Proof. unfold known_height. apply _. Defined.

(** What is left of a list when every entry whose quality label occurred
    earlier is removed. *)
Fixpoint first_occurrences (l : list format_entry) : list format_entry :=
  match l with
  | [] => []
  | x :: l' => x :: filter (fun y => quality y <> quality x) (first_occurrences l')
  end.

(** Decreasing order of a list of (key, element). *)
Definition by_key_desc {A} (a b : Z * A) : Prop := fst b <= fst a.

(** Decreasing order of a list of heights. *)
Definition descending (heights : list Z) : Prop :=
  StronglySorted (fun a b => b <= a) heights.

(** The formats of the example: heights 144, 720, 720, 1080, the two 720
    entries with different notes. *)
Definition fmt_example (height : Z) (note : string) : gmap pystr scalar :=
  <[lit "height" := SInt height]> {[ lit "format_note" := SStr (lit note) ]}.

Definition info_example : info_dict :=
  {| info_fields := ∅;
     info_formats := Some [fmt_example 144 "tiny"; fmt_example 720 "first";
                           fmt_example 720 "second"; fmt_example 1080 "full"] |}.

Definition entry_example (height : string) (note : string) : format_entry :=
  {| quality := lit height ++ lit "p"; format_note := SStr (lit note);
     ext := SStr (lit ""); filesize := SNone |}.

(** The characters of [str(z)]: digits, after a minus sign for a negative
    number. *)
Definition int_char (c : N) : Prop := is_digit c = true \/ c = chr "-".

(** Value of a digit string read left to right, one step per digit. *)
Definition decimal_step (a : Z) (c : N) : Z := a * 10 + (Z.of_N c - 48).

(** The body has no ['url'] key: a dictionary without that key, or a value
    that is not a dictionary and so has no keys. *)
Definition lacks_key (key : pystr) (data : pyval) : Prop :=
  match data with
  | VDict d => d !! key = None
  | _ => True
  end.

(** The body is a dictionary whose ['url'] is a string that is empty once
    stripped. *)
Definition blank_url (data : pyval) : Prop :=
  exists d s, data = VDict d /\ d !! lit "url" = Some (SStr s) /\ strip s = [].

(** The body is a dictionary whose ['url'] is a string that is not empty
    once stripped. *)
Definition valid_url (data : pyval) (url : pystr) : Prop :=
  exists d s, data = VDict d /\ d !! lit "url" = Some (SStr s) /\ strip s = url /\ url <> [].

(** An event that is a call into the extraction library. *)
Definition calls_library (ev : event) : bool :=
  match ev with
  | Extract _ _ _ | PrepareFilename _ => true
  | _ => false
  end.

(** The run ends with status 400 and a JSON object that has an ['error']
    key, and the extraction library was not called. *)
Definition rejected (run : M response) : Prop :=
  exists body, snd run = Ok (Json (JObj body) 400)
               /\ is_Some (body !! lit "error")
               /\ Forall (fun ev => calls_library ev = false) (fst run).

(** The run ends with status 500 and the JSON object [{'error': message}]. *)
Definition failed_with (message : pystr) (run : M response) : Prop :=
  snd run = Ok (Json (error_body message) 500).

(** The path [download_video] serves: for audio the prepared file name
    with everything after its last dot replaced by [mp3]. *)
Definition served_path (quality : scalar) (prepared : pystr) : pystr :=
  if eq_str quality (lit "audio")
  then default [] (rsplit1 (chr ".") prepared !! 0%nat) ++ lit ".mp3"
  else prepared.

(** The name under which the file is offered to the client. *)
Definition offered_name (quality : scalar) (title : pystr) : pystr :=
  if eq_str quality (lit "audio")
  then sanitize_filename title ++ lit ".mp3"
  else sanitize_filename title ++ lit "_" ++ py_str quality ++ lit "p.mp4".

Definition offered_mimetype (quality : scalar) : pystr :=
  if eq_str quality (lit "audio") then lit "audio/mpeg" else lit "video/mp4".

(** What the [try] block of a download may do on the request path: call
    the library with these options, log, start a clean-up thread with a
    delay of 60, send the file.  It neither sleeps nor removes a file. *)
Definition download_event (ydl_opts : gmap pystr json) (url : pystr) (ev : event) : Prop :=
  match ev with
  | Extract o u download => o = ydl_opts /\ u = url /\ download = true
  | PrepareFilename o => o = ydl_opts
  | ThreadStart _ delay => delay = 60
  | Sleep _ | Remove _ => False
  | SendFile _ | Log _ _ => True
  end.

(** The same, when the options do not matter. *)
Definition request_event (ev : event) : Prop :=
  match ev with
  | ThreadStart _ delay => delay = 60
  | Sleep _ | Remove _ => False
  | _ => True
  end.

(** The events of a clean-up thread after its sleep: nothing when the file
    is gone, else one removal, followed by one warning when it fails. *)
Definition cleanup_events (w : env) (fs : filesystem) (path : pystr) : list event :=
  if os_path_exists fs path
  then Remove path ::
       match os_remove fs path with
       | Ok _ => []
       | Raise e =>
           [Log WARNING (lit "Could not delete file " ++ path ++ lit ": " ++ str_exn w e)]
       end
  else [].

(** An event that is an attempt to delete a file. *)
Definition is_remove (ev : event) : bool :=
  match ev with
  | Remove _ => true
  | _ => false
  end.

(** A file system on which every removal fails. *)
Definition locked_fs : filesystem :=
  {| os_path_exists := fun _ => true;
     os_remove := fun _ => Raise (Failure (lit "PermissionError") (lit "[WinError 32]")) |}.

(** The five platform tags, in the order [detect_platform] tests them. *)
Definition platform_tags : list pystr :=
  [lit "tiktok"; lit "youtube"; lit "facebook"; lit "instagram"; lit "twitter"].

(** A name without any of the nine characters of [invalid_chars]. *)
Definition clean_name (s : pystr) : Prop := Forall (fun c => c ∉ invalid_chars) s.

(** What [fetch_video_info] may do: call [extract_info] with its own
    options in metadata-only mode, and log. *)
Definition fetch_event (url : pystr) (ev : event) : Prop :=
  match ev with
  | Extract o u download => o = fetch_ydl_opts /\ u = url /\ download = false
  | Log _ _ => True
  | _ => False
  end.

Definition is_extract (ev : event) : bool :=
  match ev with
  | Extract _ _ _ => true
  | _ => false
  end.

(** Strictly decreasing order of a list of heights. *)
Definition strictly_descending (heights : list Z) : Prop :=
  StronglySorted (fun a b => b < a) heights.

(** An extractor result with nothing but a title. *)
Definition bare_info : info_dict :=
  {| info_fields := {[ lit "title" := SStr (lit "clip") ]}; info_formats := None |}.

(** An extractor result without a title. *)
Definition untitled_info : info_dict :=
  {| info_fields := ∅; info_formats := None |}.

(** Collaborators that always deliver [info]; [send_file] succeeds or
    not as [sending] says. *)
Definition env_with (info : info_dict) (sending : res unit) : env :=
  {| extract_info := fun _ _ _ => Ok info;
     prepare_filename := fun _ _ => Ok (lit "D:\AllVideoSaverTemp\allvideosaver_0.mp4");
     send_file := fun _ => sending;
     uuid4_hex := lit "0";
     os_path_join := fun a b => a ++ lit "\" ++ b;
     str_lower := fun s => s;
     builtin_message := fun _ => lit "error" |}.

(** The five keys of the answer of [fetch_video_info]. *)
Definition video_info_keys : list pystr :=
  [lit "title"; lit "duration"; lit "thumbnail"; lit "platform"; lit "formats"].

(** An extractor result whose duration is a text. *)
Definition text_duration_info : info_dict :=
  {| info_fields :=
       <[lit "title" := SStr (lit "clip")]> {[ lit "duration" := SStr (lit "3:05") ]};
     info_formats := None |}.

(** A request whose body parsed to [data]. *)
Definition request_with (data : pyval) : flask_request := {| get_json := Ok data |}.

(** Bodies without a ['url'] for which the guard of the view functions
    answers: [None], 0, [False], the empty string, the empty list, the empty
    dictionary, a text and a list that do not hold 'url'. *)
Definition bodies_answered : list pyval :=
  [VScalar SNone; VScalar (SInt 0); VScalar (SBool false); VScalar (SStr (lit ""));
   VList []; VDict ∅; VScalar (SStr (lit "hello")); VList [SInt 1; SStr (lit "x")]].

(** The bodies for which the guard answers: the false ones, a dictionary
    without ['url'], a list that does not hold the text 'url', a text in
    which 'url' does not occur, and a dictionary whose ['url'] is a blank
    text. *)
Definition guard_answers (data : pyval) : Prop :=
  truthy_val data = false
  \/ (exists d, data = VDict d /\ d !! lit "url" = None)
  \/ (exists l, data = VList l /\ existsb (fun v => eq_str v (lit "url")) l = false)
  \/ (exists s, data = VScalar (SStr s) /\ contains (lit "url") s = false)
  \/ blank_url data.

(** * Properties *)

(** Run the monad operations whose arguments are known. *)
Ltac monad_step :=
  cbn [mbind M_bind bind emit lift ret mret M_ret try_except delayed_cleanup
       call_sanitize_filename default from_option id app fst snd negb].


(** ** Strings *)

Section Strings.
Implicit Types (s t : pystr) (c u : N).

Lemma starts_with_char c x s : starts_with [c] (x :: s) = (c =? x)%N.
Proof. simpl. by rewrite andb_true_r. Qed.

(** Replacing a one-character pattern works character by character. *)
Lemma replace_from_char c new s :
  replace_from [c] new 0 s = flat_map (fun x => if (c =? x)%N then new else [x]) s.
Proof.
  induction s as [|x s IH]; [done|].
  cbn [replace_from flat_map]. rewrite starts_with_char.
  destruct (c =? x)%N; simpl; by rewrite IH.
Qed.

Lemma str_replace_char c u s :
  str_replace [c] [u] s = (fun x => if (c =? x)%N then u else x) <$> s.
Proof.
  unfold str_replace. rewrite replace_from_char.
  induction s as [|x s IH]; [done|].
  cbn [flat_map fmap list_fmap]. rewrite IH. by destruct (c =? x)%N.
Qed.

(** Deleting a character that does not occur changes nothing. *)
Lemma str_replace_absent c s : c ∉ s -> str_replace [c] [] s = s.
Proof.
  unfold str_replace. rewrite replace_from_char.
  induction s as [|x s IH]; [done|].
  intros Hc. apply not_elem_of_cons in Hc as [Hx Hs].
  cbn [flat_map]. destruct (N.eqb_spec c x); [done|]. by rewrite IH.
Qed.

Lemma str_replace_delete_last c s : c ∉ s -> str_replace [c] [] (s ++ [c]) = s.
Proof.
  unfold str_replace. rewrite replace_from_char.
  induction s as [|x s IH].
  - intros _. simpl. by rewrite N.eqb_refl.
  - intros Hc. apply not_elem_of_cons in Hc as [Hx Hs].
    cbn [flat_map app]. destruct (N.eqb_spec c x); [done|]. simpl. by rewrite IH.
Qed.

(** A run of one-character replacements by [u] is one pass that maps
    every listed character to [u]. *)
Lemma fold_replace_chars (cs : pystr) u s :
  u ∉ cs ->
  fold_left (fun f c => str_replace [c] [u] f) cs s
  = (fun x => if bool_decide (x ∈ cs) then u else x) <$> s.
Proof.
  revert s. induction cs as [|c cs IH]; intros s Hu.
  - simpl. symmetry. etrans; [|apply list_fmap_id].
    by apply list_fmap_ext.
  - apply not_elem_of_cons in Hu as [Huc Hu].
    cbn [fold_left]. rewrite IH by done. rewrite str_replace_char.
    rewrite <- list_fmap_compose. apply list_fmap_ext. intros _ x _. simpl.
    destruct (N.eqb_spec c x) as [->|Hne].
    + rewrite (bool_decide_eq_false_2 (u ∈ cs)) by done.
      rewrite bool_decide_eq_true_2; [done | left].
    + destruct (decide (x ∈ cs)) as [Hin|Hnin].
      * rewrite !bool_decide_eq_true_2; [done | by right | done].
      * rewrite !bool_decide_eq_false_2; [done | | done].
        intros [?|?]%elem_of_cons; congruence.
Qed.

Lemma lstrip_no_space c s : is_space c = false -> lstrip (c :: s) = c :: s.
Proof. intros H. simpl. by rewrite H. Qed.

Lemma rstrip_no_space s : Forall (fun c => is_space c = false) s -> rstrip s = s.
Proof.
  induction 1 as [|c s Hc _ IH]; [done|].
  simpl. rewrite IH. destruct s; [by rewrite Hc | done].
Qed.

Lemma strip_no_space s : Forall (fun c => is_space c = false) s -> strip s = s.
Proof.
  intros H. unfold strip. destruct H as [|c s Hc Hs]; [done|].
  rewrite lstrip_no_space by done. apply rstrip_no_space. by constructor.
Qed.

(** Splitting at the last separator finds the stem and the extension. *)
Lemma rsplit_last_app sep stem e :
  sep ∉ e -> rsplit_last sep (stem ++ sep :: e) = Some (stem, e).
Proof.
  intros He.
  assert (Hnone : rsplit_last sep e = None).
  { induction e as [|x e IH]; [done|].
    apply not_elem_of_cons in He as [Hx He]. simpl. rewrite IH by done.
    destruct (N.eqb_spec x sep); congruence. }
  induction stem as [|x stem IH]; simpl.
  - by rewrite Hnone, N.eqb_refl.
  - by rewrite IH.
Qed.

Lemma rsplit_last_none sep s : sep ∉ s -> rsplit_last sep s = None.
Proof.
  induction s as [|x s IH]; [done|].
  intros [Hx Hs]%not_elem_of_cons. simpl. rewrite IH by done.
  destruct (N.eqb_spec x sep); congruence.
Qed.
End Strings.

(** ** Filename sanitizer *)

Lemma underscore_not_invalid : chr "_" ∉ invalid_chars.
Proof. apply (bool_decide_unpack _). by vm_compute. Qed.

Lemma sanitize_filename_map filename :
  sanitize_filename filename
  = take 100 ((fun c => if bool_decide (c ∈ invalid_chars) then chr "_" else c) <$> filename).
Proof.
  unfold sanitize_filename. f_equal.
  change (lit "_") with [chr "_"].
  apply fold_replace_chars, underscore_not_invalid.
Qed.

(** C6. For every title, [sanitize_filename] maps each of the nine
    characters of [invalid_chars] to an underscore, leaves the other
    characters alone and keeps the first 100 characters: the result has
    length min(length, 100), holds none of the nine characters, and a title
    of 150 characters gives exactly 100. *)
Theorem sanitize_filename_spec (filename : pystr) :
  sanitize_filename filename
  = take 100 ((fun c => if bool_decide (c ∈ invalid_chars) then chr "_" else c) <$> filename)
  /\ length invalid_chars = 9%nat
  /\ length (sanitize_filename filename) = Nat.min (length filename) 100
  /\ Forall (fun c => c ∉ invalid_chars) (sanitize_filename filename)
  /\ (length filename = 150%nat -> length (sanitize_filename filename) = 100%nat).
Proof.
  assert (Hlen : length (sanitize_filename filename) = Nat.min (length filename) 100).
  { rewrite sanitize_filename_map, length_take, length_fmap. lia. }
  split; [apply sanitize_filename_map|].
  split; [reflexivity|].
  split; [exact Hlen|].
  split.
  - rewrite sanitize_filename_map. apply Forall_take, Forall_fmap, Forall_forall.
    intros c _. simpl. case_bool_decide; [apply underscore_not_invalid | done].
  - intros H150. rewrite Hlen, H150. reflexivity.
Qed.

Lemma sanitize_filename_spec_witness :
  length (sanitize_filename (replicate 150 (chr "?"))) = 100%nat.
Proof.
  exact (proj2 (proj2 (proj2 (proj2 (sanitize_filename_spec (replicate 150 (chr "?"))))))
           eq_refl).
Defined.

(** ** Duration formatter *)

Lemma format_02d_nat (n : nat) :
  (n < 100)%nat -> format_02d (Z.of_nat n) = two_digits (Z.of_nat n).
Proof. intros Hn. do 100 (destruct n as [|n]; [reflexivity|]). lia. Qed.

Lemma format_02d_two_digits x : 0 <= x < 100 -> format_02d x = two_digits x.
Proof.
  intros Hx. rewrite <- (Z2Nat.id x) by lia. apply format_02d_nat. lia.
Qed.

(** C4. [format_duration] answers "Unknown" for every false input (None,
    0, a missing duration defaulted to 0); for any other integer it takes
    hours, minutes and seconds by floor division, leaves the hour field out
    when it is zero and writes minutes and seconds with two digits after an
    hour field (seconds also after a minute field); 59 gives "0:59" and 3661
    gives "1:01:01". *)
Theorem format_duration_spec (v : scalar) (n : Z) :
  (truthy v = false -> format_duration v = Ok (lit "Unknown"))
  /\ (n <> 0 ->
      let hours := n / 3600 in
      let minutes := (n mod 3600) / 60 in
      let seconds := n mod 60 in
      format_duration (SInt n)
      = Ok (if decide (hours = 0)
            then str_int minutes ++ lit ":" ++ two_digits seconds
            else str_int hours ++ lit ":" ++ two_digits minutes ++ lit ":" ++ two_digits seconds))
  /\ format_duration SNone = Ok (lit "Unknown")
  /\ format_duration (SInt 0) = Ok (lit "Unknown")
  /\ format_duration (SInt 59) = Ok (lit "0:59")
  /\ format_duration (SInt 3661) = Ok (lit "1:01:01").
Proof.
  split; [|split; [|by repeat split]].
  - intros Hv. unfold format_duration. by rewrite Hv.
  - intros Hn hours minutes seconds. unfold format_duration.
    cbn [truthy as_int]. destruct (Z.eqb_spec n 0) as [|_]; [done|]. cbn [negb].
    fold hours minutes seconds.
    assert (Hm : 0 <= minutes < 60).
    { subst minutes. pose proof (Z.mod_pos_bound n 3600). 
      split; [apply Z.div_pos; lia | apply Z.div_lt_upper_bound; lia]. }
    assert (Hs : 0 <= seconds < 60) by (apply Z.mod_pos_bound; lia).
    rewrite !format_02d_two_digits by lia.
    destruct (Z.eqb_spec hours 0); by case_decide.
Qed.

Lemma format_duration_spec_witness :
  format_duration SNone = Ok (lit "Unknown")
  /\ format_duration (SInt 3661)
     = Ok (str_int 1 ++ lit ":" ++ two_digits 1 ++ lit ":" ++ two_digits 1).
Proof.
  split.
  - exact (proj1 (format_duration_spec SNone 3661) eq_refl).
  - apply (proj1 (proj2 (format_duration_spec SNone 3661))). discriminate.
Defined.

(** ** Format selector *)

(** C5. [get_format_selector] is a function of the quality token alone:
    "audio" gives the best-audio expression, "360", "720" and "1080" give
    the expression bounded by that height, and every other value, "2160"
    among them, gives the combined best-video-plus-best-audio fall-back. *)
Theorem get_format_selector_spec (quality : scalar) :
  get_format_selector (SStr (lit "audio")) = lit "bestaudio/best"
  /\ get_format_selector (SStr (lit "360")) = bounded_height (lit "360")
  /\ get_format_selector (SStr (lit "720")) = bounded_height (lit "720")
  /\ get_format_selector (SStr (lit "1080")) = bounded_height (lit "1080")
  /\ contains (lit "360") (get_format_selector (SStr (lit "360"))) = true
  /\ get_format_selector (SStr (lit "2160")) = best_video_audio
  /\ (quality <> SStr (lit "audio") -> quality <> SStr (lit "360") ->
      quality <> SStr (lit "720") -> quality <> SStr (lit "1080") ->
      get_format_selector quality = best_video_audio).
Proof.
  do 6 (split; [reflexivity|]).
  intros Ha H3 H7 H1. unfold get_format_selector, eq_str, pystr_eqb.
  destruct quality as [| | | |s]; try reflexivity.
  repeat (case_bool_decide; [congruence|]). reflexivity.
Qed.

Lemma get_format_selector_spec_witness :
  get_format_selector (SStr (lit "best")) = best_video_audio.
Proof.
  pose proof (get_format_selector_spec (SStr (lit "best")))
    as (_ & _ & _ & _ & _ & _ & Hother).
  apply Hother; intros H; by vm_compute in H.
Defined.

(** ** Decimal text of integers *)

Section Decimal.
Lemma digit_is_digit d : 0 <= d <= 9 -> is_digit (digit d) = true.
Proof. intros Hd. unfold is_digit, digit. apply andb_true_iff. split; apply N.leb_le; lia. Qed.

Lemma digit_value d : 0 <= d <= 9 -> Z.of_N (digit d) - 48 = d.
Proof. intros Hd. unfold digit. lia. Qed.

Lemma decimal_value_ascii c :
  is_digit c = true -> decimal_value c = Some (Z.of_N c - 48).
Proof.
  unfold is_digit. intros [H1 H2]%andb_true_iff. apply N.leb_le in H1, H2.
  unfold decimal_value, decimal_zeros. cbn [find].
  destruct (N.leb_spec 48 c); [|lia]. destruct (N.ltb_spec c (48 + 10)); [|lia].
  cbn [andb]. f_equal. lia.
Qed.

Lemma int_strip_no_space s :
  Forall (fun c => is_int_space c = false) s ->
  rstrip_by is_int_space (lstrip_by is_int_space s) = s.
Proof.
  intros H. destruct H as [|c s Hc Hs]; [done|].
  cbn [lstrip_by]. rewrite Hc.
  assert (Hall : Forall (fun c => is_int_space c = false) (c :: s)) by (by constructor).
  clear Hc Hs. induction Hall as [|x l Hx _ IH]; [done|].
  cbn [rstrip_by]. rewrite IH. destruct l; [by rewrite Hx | done].
Qed.

Lemma parse_digits_fold s acc :
  Forall (fun c => is_digit c = true) s ->
  parse_digits acc false s = Some (fold_left decimal_step s acc).
Proof.
  intros Hs. revert acc. induction Hs as [|c s Hc _ IH]; intros acc; [done|].
  cbn [parse_digits fold_left]. rewrite (decimal_value_ascii c Hc). apply IH.
Qed.

Lemma parse_unsigned_fold s :
  s <> [] -> Forall (fun c => is_digit c = true) s ->
  parse_unsigned s = Some (fold_left decimal_step s 0).
Proof.
  intros Hne Hs. destruct Hs as [|c s Hc Hs]; [done|].
  cbn [parse_unsigned fold_left]. rewrite (decimal_value_ascii c Hc).
  by apply parse_digits_fold.
Qed.

Lemma digits_fuel_S f n :
  digits_fuel (S f) n
  = if n <? 10 then [digit n] else digits_fuel f (n / 10) ++ [digit (n mod 10)].
Proof. reflexivity. Qed.

Lemma digits_fuel_spec f n :
  0 <= n < 2 ^ Z.of_nat (S f) ->
  digits_fuel (S f) n <> []
  /\ Forall (fun c => is_digit c = true) (digits_fuel (S f) n)
  /\ fold_left decimal_step (digits_fuel (S f) n) 0 = n.
Proof.
  revert n. induction f as [|f IH]; intros n Hn.
  - assert (n < 10) by (change (2 ^ Z.of_nat 1) with 2 in Hn; lia).
    cbn [digits_fuel]. destruct (Z.ltb_spec n 10); [|lia].
    split; [done|]. split; [constructor; [apply digit_is_digit; lia | constructor]|].
    cbn. unfold decimal_step. rewrite digit_value; lia.
  - rewrite (digits_fuel_S (S f)). destruct (Z.ltb_spec n 10).
    + split; [done|]. split; [constructor; [apply digit_is_digit; lia | constructor]|].
      cbn. unfold decimal_step. rewrite digit_value; lia.
    + assert (Hq : 0 <= n / 10 < 2 ^ Z.of_nat (S f)).
      { split; [apply Z.div_pos; lia|].
        apply Z.div_lt_upper_bound; [lia|].
        replace (Z.of_nat (S (S f))) with (Z.succ (Z.of_nat (S f))) in Hn by lia.
        rewrite Z.pow_succ_r in Hn by lia. lia. }
      destruct (IH _ Hq) as (Hne & Hall & Hval).
      pose proof (Z.mod_pos_bound n 10 ltac:(lia)) as Hr.
      split; [apply not_eq_sym, app_cons_not_nil|].
      split.
      * apply Forall_app. split; [done|].
        constructor; [apply digit_is_digit; lia | constructor].
      * rewrite fold_left_app, Hval. cbn. unfold decimal_step.
        rewrite digit_value by lia. pose proof (Z.div_mod n 10). lia.
Qed.

Lemma str_nat_spec n :
  0 <= n ->
  str_nat n <> []
  /\ Forall (fun c => is_digit c = true) (str_nat n)
  /\ parse_unsigned (str_nat n) = Some n.
Proof.
  intros Hn. unfold str_nat.
  assert (Hb : 0 <= n < 2 ^ Z.of_nat (S (Z.to_nat (Z.log2 n)))).
  { split; [done|].
    replace (Z.of_nat (S (Z.to_nat (Z.log2 n)))) with (Z.succ (Z.log2 n))
      by (pose proof (Z.log2_nonneg n); lia).
    destruct (Z.eq_dec n 0) as [->|]; [done|].
    apply Z.log2_spec. lia. }
  destruct (digits_fuel_spec _ _ Hb) as (Hne & Hall & Hval).
  split; [done|]. split; [done|].
  rewrite parse_unsigned_fold by done. by rewrite Hval.
Qed.

Lemma str_int_chars z : Forall int_char (str_int z).
Proof.
  unfold str_int. destruct (Z.ltb_spec z 0).
  - constructor; [by right|].
    eapply Forall_impl; [apply str_nat_spec; lia|]. by left.
  - eapply Forall_impl; [apply str_nat_spec; lia|]. by left.
Qed.

Lemma int_char_no_space c : int_char c -> is_space c = false.
Proof.
  intros [Hd| ->]; [|done].
  unfold is_digit in Hd. apply andb_true_iff in Hd as [H1 H2].
  apply N.leb_le in H1, H2. unfold is_space.
  repeat match goal with
         | |- context [(?a <=? ?b)%N] => destruct (N.leb_spec a b); try lia
         | |- context [(?a =? ?b)%N] => destruct (N.eqb_spec a b); try lia
         end; reflexivity.
Qed.

Lemma int_char_not_p c : int_char c -> c <> chr "p".
Proof.
  intros [Hd| ->]; [|done].
  unfold is_digit in Hd. apply andb_true_iff in Hd as [H1 H2].
  apply N.leb_le in H1, H2. change (chr "p") with 112%N. lia.
Qed.

(** Reading back the text of an integer gives the integer. *)
Lemma py_int_str_int z : py_int (str_int z) = Some z.
Proof.
  unfold py_int. rewrite int_strip_no_space.
  2:{ eapply Forall_impl; [apply str_int_chars|]. intros c Hc.
      unfold is_int_space. by rewrite (int_char_no_space c Hc). }
  unfold str_int. destruct (Z.ltb_spec z 0).
  - rewrite N.eqb_refl.
    destruct (str_nat_spec (- z)) as (_ & _ & ->); [lia|]. simpl. f_equal. lia.
  - destruct (str_nat_spec z) as (Hne & Hall & Hval); [lia|].
    destruct (str_nat z) as [|c r]; [done|].
    apply Forall_cons in Hall as [Hc _].
    unfold is_digit in Hc. apply andb_true_iff in Hc as [H1 H2].
    apply N.leb_le in H1, H2.
    destruct (N.eqb_spec c (chr "-")) as [->|_]; [done|].
    destruct (N.eqb_spec c (chr "+")) as [->|_]; [done|].
    exact Hval.
Qed.

(** The sort key of a label is the height it was built from. *)
Lemma py_int_label z : py_int (str_replace (lit "p") (lit "") (label z)) = Some z.
Proof.
  unfold label. change (lit "p") with [chr "p"]. change (lit "") with (@nil N).
  rewrite str_replace_delete_last; [apply py_int_str_int|].
  intros Hin. pose proof (str_int_chars z) as Hall.
  rewrite Forall_forall in Hall. by apply (int_char_not_p _ (Hall _ Hin)).
Qed.
End Decimal.

(** ** Format lister *)

Section Lister.
Implicit Types (fmt : gmap pystr scalar) (x y : format_entry).
Implicit Types (l u : list format_entry) (seen : gset pystr).

(** The first loop is a filter followed by a map. *)
Lemma collect_formats_filter (fmts : list (gmap pystr scalar)) :
  collect_formats fmts = entry_of <$> filter known_height fmts.
Proof.
  unfold collect_formats.
  enough (H : forall acc,
             fold_left
               (fun formats fmt =>
                  if truthy (default SNone (fmt !! lit "height"))
                  then formats ++ [entry_of fmt] else formats) fmts acc
             = acc ++ (entry_of <$> filter known_height fmts)) by apply H.
  induction fmts as [|fmt fmts IH]; intros acc.
  - simpl. by rewrite app_nil_r.
  - cbn [fold_left]. rewrite IH.
    destruct (truthy (default SNone (fmt !! lit "height"))) eqn:Hh.
    + rewrite filter_cons_True by done. by rewrite <- app_assoc.
    + rewrite filter_cons_False; [done|]. unfold known_height. by rewrite Hh.
Qed.

Lemma first_occurrences_filter (P : pystr -> Prop) `{!forall q, Decision (P q)} l :
  filter (fun x => P (quality x)) (first_occurrences l)
  = first_occurrences (filter (fun x => P (quality x)) l).
Proof.
  induction l as [|x l IH]; [done|].
  cbn [first_occurrences]. destruct (decide (P (quality x))) as [HP|HP].
  - rewrite !filter_cons_True by done. cbn [first_occurrences]. f_equal.
    rewrite <- IH, !list_filter_filter. apply list_filter_iff. tauto.
  - rewrite !filter_cons_False by done. rewrite <- IH.
    apply list_filter_filter_l. intros y Hy Heq. apply HP. by rewrite <- Heq.
Qed.

(** The second loop from any state: what it appends to [unique_formats]
    are the first occurrences among the labels not seen before. *)
Lemma unique_loop_from l seen u :
  snd (fold_left unique_step l (seen, u))
  = u ++ first_occurrences (filter (fun x => quality x ∉ seen) l).
Proof.
  revert seen u. induction l as [|x l IH]; intros seen u.
  - simpl. by rewrite app_nil_r.
  - cbn [fold_left]. unfold unique_step at 2. case_bool_decide as Hseen.
    + rewrite IH. rewrite filter_cons_False; [done|]. by intros [].
    + rewrite IH, filter_cons_True by done. cbn [first_occurrences].
      rewrite <- app_assoc. cbn [app]. do 2 f_equal.
      pose proof (first_occurrences_filter (fun q => q <> quality x)
                    (filter (fun y => quality y ∉ seen) l)) as Hc.
      cbv beta in Hc. rewrite Hc.
      rewrite list_filter_filter. f_equal. apply list_filter_iff.
      intros y. rewrite not_elem_of_union, not_elem_of_singleton. tauto.
Qed.

Lemma unique_loop_first_occurrences l : unique_loop l = first_occurrences l.
Proof.
  unfold unique_loop. rewrite unique_loop_from. cbn [app]. f_equal.
  induction l as [|x l IH]; [done|].
  rewrite filter_cons_True by set_solver. by rewrite IH.
Qed.

Lemma first_occurrences_subseteq l : first_occurrences l ⊆ l.
Proof.
  induction l as [|x l IH]; [done|].
  cbn [first_occurrences]. intros y [->|Hy]%elem_of_cons; [left|right].
  apply list_elem_of_filter in Hy as [_ Hy]. by apply IH.
Qed.

(** No label occurs twice among the first occurrences. *)
Lemma first_occurrences_NoDup l : NoDup (quality <$> first_occurrences l).
Proof.
  induction l as [|x l IH]; [constructor|].
  cbn [first_occurrences fmap list_fmap]. constructor.
  - intros (y & Hq & Hy)%list_elem_of_fmap.
    apply list_elem_of_filter in Hy as [Hne _]. congruence.
  - clear -IH. induction (first_occurrences l) as [|y r IHr]; [constructor|].
    cbn [fmap list_fmap] in IH. apply NoDup_cons in IH as [Hy Hr].
    rewrite filter_cons. case_decide; [|by apply IHr].
    cbn [fmap list_fmap]. constructor; [|by apply IHr].
    intros (z & Hq & Hz)%list_elem_of_fmap.
    apply list_elem_of_filter in Hz as [_ Hz].
    apply Hy, list_elem_of_fmap. eauto.
Qed.

(** An entry stays exactly when no earlier entry has its label. *)
Lemma first_occurrences_lookup l (i : nat) x :
  l !! i = Some x ->
  (forall (j : nat) y, (j < i)%nat -> l !! j = Some y -> quality y <> quality x) ->
  x ∈ first_occurrences l.
Proof.
  revert i. induction l as [|z l IH]; intros i Hi Hfirst; [done|].
  cbn [first_occurrences]. destruct i as [|i].
  - injection Hi as ->. left.
  - right. apply list_elem_of_filter. split.
    + intros Heq. by apply (Hfirst 0%nat z); [lia | | ].
    + apply (IH i); [done|]. intros j y Hj Hy.
      apply (Hfirst (S j) y); [lia | done].
Qed.
End Lister.

Section Sorting.
Context {A : Type}.
Implicit Types (x : A) (k : Z) (kl : list (Z * A)).

Lemma insert_desc_perm k x kl : insert_desc k x kl ≡ₚ (k, x) :: kl.
Proof.
  induction kl as [|[k' y] kl IH]; [done|].
  cbn [insert_desc]. destruct (k <? k'); [|done].
  rewrite IH. apply Permutation_swap.
Qed.

Lemma insert_desc_sorted k x kl :
  StronglySorted by_key_desc kl -> StronglySorted by_key_desc (insert_desc k x kl).
Proof.
  induction 1 as [|[k' y] kl Hs IH Hall]; [repeat constructor|].
  cbn [insert_desc]. destruct (Z.ltb_spec k k') as [Hlt|Hge].
  - constructor; [done|].
    rewrite insert_desc_perm. constructor; [|done]. unfold by_key_desc. simpl. lia.
  - constructor; [by constructor|].
    constructor; [unfold by_key_desc; simpl; lia|].
    eapply Forall_impl; [exact Hall|]. intros [k'' z]. unfold by_key_desc. simpl. lia.
Qed.

Lemma sort_desc_perm kl : sort_desc kl ≡ₚ kl.
Proof.
  induction kl as [|[k x] kl IH]; [done|].
  cbn [sort_desc fold_right fst snd]. rewrite insert_desc_perm. by constructor.
Qed.

Lemma sort_desc_sorted kl : StronglySorted by_key_desc (sort_desc kl).
Proof.
  induction kl as [|[k x] kl IH]; [constructor|].
  cbn [sort_desc fold_right fst snd]. by apply insert_desc_sorted.
Qed.

(** When every key can be computed, [keys_of] pairs each element with
    its key. *)
Lemma keys_of_ok (key : A -> res Z) (R : Z -> A -> Prop) (l : list A) :
  Forall (fun x => exists k, key x = Ok k /\ R k x) l ->
  exists kl, keys_of key l = Ok kl /\ snd <$> kl = l
             /\ Forall (fun kx => R (fst kx) (snd kx)) kl.
Proof.
  induction 1 as [|x l (k & Hk & HR) _ (kl & Hkl & Hsnd & Hall)].
  - exists []. by repeat split.
  - exists ((k, x) :: kl). cbn [keys_of]. rewrite Hk, Hkl.
    split; [done|]. split; [by cbn; rewrite Hsnd | by constructor].
Qed.
End Sorting.

(** A kept format of a well-typed list has an integer height, its entry
    carries the label of that height, and the sort key reads it back. *)
Lemma entry_of_known (fmt : gmap pystr scalar) :
  int_height fmt -> known_height fmt ->
  exists h, fmt !! lit "height" = Some (SInt h) /\ h <> 0
            /\ quality (entry_of fmt) = label h
            /\ sort_key (entry_of fmt) = Ok h.
Proof.
  unfold int_height, known_height, sort_key, entry_of. cbn [quality].
  destruct (fmt !! lit "height") as [[| |h| |]|]; try done.
  intros _ Hh. exists h. cbn [default py_str truthy] in *.
  split; [done|]. split; [intros ->; by vm_compute in Hh|]. split; [done|].
  unfold id. cbn [py_str]. fold (label h). by rewrite py_int_label.
Qed.

(** C3. For every metadata dictionary whose format heights are integers
    or unset, [get_available_formats] returns a list that holds exactly the
    first occurrence of each label among the entries of the formats with a
    known height, every entry labelled with its height followed by "p", in
    decreasing order of height; heights 144, 720, 720, 1080 give the three
    entries 1080p, 720p (the first of the two) and 144p, and a dictionary
    without formats gives the empty list. *)
Theorem get_available_formats_spec (info : info_dict) :
  (Forall int_height (default [] (info_formats info)) ->
   exists out heights,
     get_available_formats info = Ok out
     /\ out ≡ₚ first_occurrences
                 (entry_of <$> filter known_height (default [] (info_formats info)))
     /\ Forall (fun e => exists fmt h,
                    fmt ∈ default [] (info_formats info)
                    /\ fmt !! lit "height" = Some (SInt h) /\ h <> 0
                    /\ e = entry_of fmt /\ quality e = label h) out
     /\ NoDup (quality <$> out)
     /\ quality <$> out = label <$> heights
     /\ descending heights)
  /\ (info_formats info = None -> get_available_formats info = Ok [])
  /\ get_available_formats info_example
     = Ok [entry_example "1080" "full"; entry_example "720" "first";
           entry_example "144" "tiny"].
Proof.
  split; [|split; [|by vm_compute]].
  2:{ intros Hnone. unfold get_available_formats. by rewrite Hnone. }
  intros Htyped. unfold get_available_formats.
  replace (match info_formats info with Some fmts => collect_formats fmts | None => [] end)
    with (collect_formats (default [] (info_formats info)))
    by (by destruct (info_formats info)).
  set (fmts := default [] (info_formats info)) in *.
  rewrite collect_formats_filter, unique_loop_first_occurrences.
  set (kept := first_occurrences (entry_of <$> filter known_height fmts)).
  assert (Hkept : Forall (fun e => exists fmt h,
                     fmt ∈ fmts /\ fmt !! lit "height" = Some (SInt h) /\ h <> 0
                     /\ e = entry_of fmt /\ quality e = label h
                     /\ sort_key e = Ok h) kept).
  { apply Forall_forall. intros e He.
    apply first_occurrences_subseteq, list_elem_of_fmap in He as (fmt & -> & Hfmt).
    apply list_elem_of_filter in Hfmt as [Hknown Hin].
    rewrite Forall_forall in Htyped.
    destruct (entry_of_known fmt (Htyped _ Hin) Hknown) as (h & ? & ? & ? & ?).
    by exists fmt, h. }
  destruct (keys_of_ok sort_key (fun k e => quality e = label k) kept)
    as (kl & Hkeys & Hsnd & Hlabels).
  { eapply Forall_impl; [exact Hkept|]. intros e (fmt & h & _ & _ & _ & _ & ? & ?). eauto. }
  unfold sorted_reverse. rewrite Hkeys.
  exists (snd <$> sort_desc kl), (fst <$> sort_desc kl).
  assert (Hperm : snd <$> sort_desc kl ≡ₚ kept).
  { rewrite <- Hsnd. apply fmap_Permutation, sort_desc_perm. }
  split; [done|]. split; [done|]. split.
  { rewrite Hperm. eapply Forall_impl; [exact Hkept|].
    intros e (fmt & h & ? & ? & ? & ? & ? & _). by exists fmt, h. }
  split; [rewrite Hperm; apply first_occurrences_NoDup|]. split.
  - rewrite <- (sort_desc_perm kl) in Hlabels.
    clear -Hlabels. induction Hlabels as [|[k e] r Hke _ IH]; [done|].
    cbn [fmap list_fmap fst snd] in *. by rewrite Hke, IH.
  - apply (StronglySorted_fmap _ by_key_desc); [done | apply sort_desc_sorted].
Qed.

Lemma get_available_formats_spec_witness :
  exists out heights,
    get_available_formats info_example = Ok out
    /\ out ≡ₚ first_occurrences
                (entry_of <$> filter known_height (default [] (info_formats info_example)))
    /\ Forall (fun e => exists fmt h,
                   fmt ∈ default [] (info_formats info_example)
                   /\ fmt !! lit "height" = Some (SInt h) /\ h <> 0
                   /\ e = entry_of fmt /\ quality e = label h) out
    /\ NoDup (quality <$> out)
    /\ quality <$> out = label <$> heights
    /\ descending heights.
Proof.
  apply (proj1 (get_available_formats_spec info_example)).
  repeat constructor.
Defined.

(** ** Request handlers *)

Section Handlers.
Context (w : env).
Implicit Types (d : gmap pystr scalar) (data : pyval) (s url : pystr).

Lemma bind_lift_ok {A B} (a : A) (k : A -> M B) : lift (Ok a) ≫= k = k a.
Proof. unfold mbind, M_bind, bind, lift. by destruct (k a). Qed.

Lemma bind_lift_raise {A B} (e : exn) (k : A -> M B) : lift (Raise e) ≫= k = ([], Raise e).
Proof. reflexivity. Qed.

Lemma bind_emit {B} (ev : event) (k : unit -> M B) :
  emit ev ≫= k = (ev :: fst (k tt), snd (k tt)).
Proof. unfold mbind, M_bind, bind, emit. by destruct (k tt). Qed.

(** An [except] block that answers always gives an answer. *)
Lemma try_except_answers {A} (body : M A) (handler : exn -> M A) :
  (forall e, exists t a, handler e = (t, Ok a)) ->
  exists t a, try_except body handler = (t, Ok a).
Proof.
  intros Hh. destruct body as [t [a|e]]; simpl; [by eauto|].
  destruct (Hh e) as (t' & a & ->). eauto.
Qed.

Lemma truthy_dict d key v : d !! key = Some v -> truthy_val (VDict d) = true.
Proof.
  intros Hk. simpl. rewrite bool_decide_eq_false_2; [done|].
  intros ->. by rewrite lookup_empty in Hk.
Qed.

(** The checks at the head of [fetch_video_info] on a dictionary. *)
Lemma fetch_video_info_dict d :
  fetch_video_info w (VDict d)
  = match d !! lit "url" with
    | None => ([], Ok (Json (error_body (lit "No URL provided")) 400))
    | Some (SStr s) =>
        if bool_decide (strip s = [])
        then ([], Ok (Json (error_body (lit "Empty URL provided")) 400))
        else try_except (fetch_video_info_try w fetch_ydl_opts (strip s))
                        (fetch_video_info_except w)
    | Some _ => ([], Raise AttributeError)
    end.
Proof.
  unfold fetch_video_info. destruct (d !! lit "url") as [v|] eqn:Hurl.
  - rewrite (truthy_dict _ _ _ Hurl). cbn [negb py_in py_getitem].
    rewrite Hurl, bool_decide_eq_true_2 by eauto.
    rewrite !bind_lift_ok. cbn [negb].
    destruct v; try reflexivity. cbn [py_strip]. by rewrite bind_lift_ok.
  - destruct (truthy_val (VDict d)); [|done]. cbn [negb py_in].
    rewrite Hurl, bool_decide_eq_false_2 by (by intros [? ?]).
    by rewrite bind_lift_ok.
Qed.

(** The checks at the head of [download_video] on a dictionary. *)
Lemma download_video_dict d :
  download_video w (VDict d)
  = match d !! lit "url" with
    | None => ([], Ok (Json (error_body (lit "No URL provided")) 400))
    | Some (SStr s) =>
        if bool_decide (strip s = [])
        then ([], Ok (Json (error_body (lit "Empty URL provided")) 400))
        else
          let quality := default (SStr (lit "720")) (d !! lit "quality") in
          let filepath := os_path_join w DOWNLOAD_FOLDER (lit "allvideosaver_" ++ uuid4_hex w) in
          try_except
            (download_video_try w (download_ydl_opts filepath quality) (strip s) quality)
            (download_video_except w)
    | Some _ => ([], Raise AttributeError)
    end.
Proof.
  unfold download_video. destruct (d !! lit "url") as [v|] eqn:Hurl.
  - rewrite (truthy_dict _ _ _ Hurl). cbn [negb py_in py_getitem py_get].
    rewrite Hurl, bool_decide_eq_true_2 by eauto.
    rewrite !bind_lift_ok. cbn [negb].
    destruct v; try reflexivity. cbn [py_strip]. by rewrite !bind_lift_ok.
  - destruct (truthy_val (VDict d)); [|done]. cbn [negb py_in].
    rewrite Hurl, bool_decide_eq_false_2 by (by intros [? ?]).
    by rewrite bind_lift_ok.
Qed.

Lemma rejected_400 message :
  rejected ([], Ok (Json (error_body message) 400)).
Proof.
  eexists. split; [reflexivity|]. split; [|constructor].
  unfold error_body. rewrite lookup_singleton_eq. eauto.
Qed.
End Handlers.

Lemma guard_answers_rejected (w : env) (data : pyval) :
  guard_answers data ->
  rejected (fetch_video_info w data) /\ rejected (download_video w data).
Proof.
  intros [Hfalse|[(d & -> & Hnone)|[(l & -> & Hl)|[(s & -> & Hs)|(d & s & -> & Hurl & Hblank)]]]].
  - unfold fetch_video_info, download_video. rewrite Hfalse.
    split; apply rejected_400.
  - rewrite fetch_video_info_dict, download_video_dict, Hnone.
    split; apply rejected_400.
  - unfold fetch_video_info, download_video.
    destruct (truthy_val (VList l)); cbn [negb]; [|split; apply rejected_400].
    cbn [py_in]. rewrite !bind_lift_ok, Hl. split; apply rejected_400.
  - unfold fetch_video_info, download_video.
    destruct (truthy_val (VScalar (SStr s))); cbn [negb]; [|split; apply rejected_400].
    cbn [py_in]. rewrite !bind_lift_ok, Hs. split; apply rejected_400.
  - rewrite fetch_video_info_dict, download_video_dict, Hurl.
    rewrite bool_decide_eq_true_2 by done. split; apply rejected_400.
Qed.

Lemma view_of_body (w : env) (data : pyval) :
  fetch_video_info_view w (request_with data) = fetch_video_info w data
  /\ download_video_view w (request_with data) = download_video w data.
Proof.
  unfold fetch_video_info_view, download_video_view, request_with. cbn [get_json].
  by rewrite !bind_lift_ok.
Qed.

(** C1.  The guard [not data or 'url' not in data] answers 400 for [None],
    0, [False], the empty string, list and dictionary, and for a text or a
    list that does not hold 'url'.  For the JSON body 5, which has no
    ['url'] key either, the membership test raises [TypeError] outside the
    [try]: both view functions end with that exception, without a response
    and without a call of the extraction library. *)
Theorem missing_url_type_error (w : env) :
  lacks_key (lit "url") (VScalar (SInt 5))
  /\ fetch_video_info_view w (request_with (VScalar (SInt 5))) = ([], Raise TypeError)
  /\ download_video_view w (request_with (VScalar (SInt 5))) = ([], Raise TypeError)
  /\ ~ rejected (fetch_video_info_view w (request_with (VScalar (SInt 5))))
  /\ ~ rejected (download_video_view w (request_with (VScalar (SInt 5))))
  /\ Forall (fun data =>
               lacks_key (lit "url") data
               /\ rejected (fetch_video_info_view w (request_with data))
               /\ rejected (download_video_view w (request_with data)))
            bodies_answered.
Proof.
  split; [exact I|]. split; [reflexivity|]. split; [reflexivity|].
  split; [intros (b & Hb & _); discriminate Hb|].
  split; [intros (b & Hb & _); discriminate Hb|].
  assert (Hguard : forall data,
             guard_answers data ->
             rejected (fetch_video_info_view w (request_with data))
             /\ rejected (download_video_view w (request_with data))).
  { intros data Hdata. destruct (view_of_body w data) as [-> ->].
    by apply guard_answers_rejected. }
  unfold bodies_answered.
  repeat (apply Forall_cons; split;
          [split; [reflexivity || exact I|]; apply Hguard;
           first [ by left
                 | right; right; left; eexists; split; reflexivity
                 | right; right; right; left; eexists; split; reflexivity ]|]).
  constructor.
Qed.

(** C2. With a ['url'] that is a string and not empty once stripped, an
    exception [e] raised by the extraction library (by [extract_info] in
    either handler, or by [prepare_filename] in the download handler) is
    caught: the handler logs it and answers with status 500 and the body
    [{'error': str(e)}].  Whatever the collaborators do, both handlers end
    with a response and not with an exception. *)
Theorem extraction_failure_caught (w : env) (d : gmap pystr scalar)
    (url : pystr) (e : exn) :
  valid_url (VDict d) url ->
  let quality := default (SStr (lit "720")) (d !! lit "quality") in
  let filepath := os_path_join w DOWNLOAD_FOLDER (lit "allvideosaver_" ++ uuid4_hex w) in
  let ydl_opts := download_ydl_opts filepath quality in
  (extract_info w fetch_ydl_opts url false = Raise e ->
   fetch_video_info w (VDict d)
   = ([Extract fetch_ydl_opts url false;
       Log ERROR (lit "Error fetching info: " ++ str_exn w e)],
      Ok (Json (error_body (str_exn w e)) 500)))
  /\ (extract_info w ydl_opts url true = Raise e ->
      download_video w (VDict d)
      = ([Extract ydl_opts url true;
          Log ERROR (lit "Download error: " ++ str_exn w e)],
         Ok (Json (error_body (str_exn w e)) 500)))
  /\ (forall info,
        extract_info w ydl_opts url true = Ok info ->
        prepare_filename w ydl_opts info = Raise e ->
        download_video w (VDict d)
        = ([Extract ydl_opts url true; PrepareFilename ydl_opts;
            Log ERROR (lit "Download error: " ++ str_exn w e)],
           Ok (Json (error_body (str_exn w e)) 500)))
  /\ (exists trace r, fetch_video_info w (VDict d) = (trace, Ok r))
  /\ (exists trace r, download_video w (VDict d) = (trace, Ok r)).
Proof.
  intros (d' & s & [= <-] & Hurl & <- & Hne) quality filepath ydl_opts.
  rewrite fetch_video_info_dict, download_video_dict, Hurl.
  rewrite bool_decide_eq_false_2 by done.
  cbv zeta. fold quality filepath ydl_opts.
  split; [|split; [|split; [|split]]].
  - intros Hraise. unfold fetch_video_info_try, ydl_extract_info.
    rewrite Hraise. reflexivity.
  - intros Hraise. unfold download_video_try, ydl_extract_info.
    rewrite Hraise. reflexivity.
  - intros info Hinfo Hraise.
    unfold download_video_try, ydl_extract_info, ydl_prepare_filename.
    rewrite Hinfo. cbn. rewrite Hraise. reflexivity.
  - apply try_except_answers. intros e'. by eexists _, _.
  - apply try_except_answers. intros e'. by eexists _, _.
Qed.

Lemma extraction_failure_caught_witness :
  failed_with (lit "Unsupported URL")
    (fetch_video_info sample_env (body [("url"%string, SStr (lit " http://bad/ "))]))
  /\ failed_with (lit "Unsupported URL")
       (download_video sample_env (body [("url"%string, SStr (lit " http://bad/ "))])).
Proof.
  assert (Hvalid : valid_url (body [("url"%string, SStr (lit " http://bad/ "))])
                     (lit "http://bad/")).
  { eexists _, (lit " http://bad/ "). split; [reflexivity|]. by repeat split. }
  pose proof (extraction_failure_caught sample_env _ _
                (Failure (lit "DownloadError") (lit "Unsupported URL")) Hvalid)
    as (Hfetch & Hdownload & _).
  unfold failed_with, body. split.
  - rewrite Hfetch; reflexivity.
  - rewrite Hdownload; reflexivity.
Defined.

(** What a successful run of the [try] block of [download_video] did, step
    by step. *)
Lemma download_video_try_inv (w : env) (ydl_opts : gmap pystr json) (url : pystr)
    (quality : scalar) (trace : list event) (r : response) :
  download_video_try w ydl_opts url quality = (trace, Ok r) ->
  exists info prepared title,
    extract_info w ydl_opts url true = Ok info
    /\ prepare_filename w ydl_opts info = Ok prepared
    /\ info_fields info !! lit "title" = Some (SStr title)
    /\ send_file w (served_path quality prepared) = Ok tt
    /\ r = Attachment (served_path quality prepared) (offered_name quality title)
             (offered_mimetype quality)
    /\ trace = [Extract ydl_opts url true; PrepareFilename ydl_opts;
                Log INFO (lit "Downloaded: " ++ title);
                ThreadStart (served_path quality prepared) 60;
                SendFile (served_path quality prepared)].
Proof.
  unfold download_video_try, ydl_extract_info, ydl_prepare_filename,
    served_path, offered_name, offered_mimetype, info_getitem.
  destruct (extract_info w ydl_opts url true) as [info|e]; monad_step; [|discriminate].
  destruct (prepare_filename w ydl_opts info) as [prepared|e] eqn:Hprepared;
    monad_step; [|discriminate].
  destruct (info_fields info !! lit "title") as [[| | | |title]|] eqn:Htitle;
    destruct (eq_str quality (lit "audio")); monad_step; try discriminate.
  all: match goal with
       | |- context [send_file ?w' ?p] => destruct (send_file w' p) as [[]|e] eqn:Hsend
       end; monad_step; [|discriminate].
  all: intros [= <- <-]; exists info, prepared, title; by repeat split.
Qed.

Lemma eq_str_true (v : scalar) (s : pystr) : eq_str v s = true <-> v = SStr s.
Proof.
  unfold eq_str, pystr_eqb. destruct v as [| | | |t]; try by split.
  rewrite bool_decide_eq_true. split; congruence.
Qed.

Lemma served_path_audio (stem extension : pystr) :
  chr "." ∉ extension ->
  served_path (SStr (lit "audio")) (stem ++ lit "." ++ extension) = stem ++ lit ".mp3".
Proof.
  intros Hext. unfold served_path, rsplit1.
  change (lit "." ++ extension) with (chr "." :: extension).
  by rewrite rsplit_last_app.
Qed.

Lemma served_path_audio_no_dot (prepared : pystr) :
  chr "." ∉ prepared ->
  served_path (SStr (lit "audio")) prepared = prepared ++ lit ".mp3".
Proof.
  intros Hdot. unfold served_path, rsplit1. by rewrite rsplit_last_none.
Qed.

(** Only a dictionary with a usable ['url'] gets as far as the [try]
    block; an attachment can only come out of that block. *)
Lemma download_video_inv (w : env) (data : pyval) (trace : list event)
    (path name mimetype : pystr) :
  download_video w data = (trace, Ok (Attachment path name mimetype)) ->
  exists d url,
    data = VDict d /\ valid_url data url
    /\ download_video_try w
         (download_ydl_opts
            (os_path_join w DOWNLOAD_FOLDER (lit "allvideosaver_" ++ uuid4_hex w))
            (default (SStr (lit "720")) (d !! lit "quality")))
         url (default (SStr (lit "720")) (d !! lit "quality"))
       = (trace, Ok (Attachment path name mimetype)).
Proof.
  destruct data as [v|l|d].
  - unfold download_video.
    destruct v as [|[]|z|f|s]; cbn [truthy_val truthy negb py_in]; try discriminate.
    + destruct (z =? 0); discriminate.
    + destruct (float_is_zero f); discriminate.
    + destruct s; [discriminate|]. cbn [negb].
      rewrite bind_lift_ok. destruct (contains _ _); discriminate.
  - unfold download_video. destruct l; [discriminate|].
    cbn [truthy_val negb py_in]. rewrite bind_lift_ok.
    destruct (existsb _ _); discriminate.
  - rewrite download_video_dict.
    destruct (d !! lit "url") as [[| | | |s]|] eqn:Hurl; try discriminate.
    case_bool_decide as Hblank; [discriminate|]. cbv zeta.
    intros Hrun. exists d, (strip s). split; [done|].
    split; [by exists d, s|].
    destruct (download_video_try _ _ _ _) as [t [r|e]]; [exact Hrun | discriminate].
Qed.

(** C7. A download that succeeds answers with an attachment: its name is
    the sanitized title followed by [.mp3] for the quality "audio" and by
    [_<quality>p.mp4] otherwise, its MIME type is [audio/mpeg] exactly for
    the quality "audio" and [video/mp4] otherwise, and for "audio" the file
    served is the prepared file name with the text after its last dot
    replaced by [mp3]. *)
Theorem download_attachment (w : env) (data : pyval) (trace : list event)
    (path name mimetype : pystr) :
  download_video w data = (trace, Ok (Attachment path name mimetype)) ->
  exists d quality ydl_opts url info prepared title,
    data = VDict d
    /\ quality = default (SStr (lit "720")) (d !! lit "quality")
    /\ extract_info w ydl_opts url true = Ok info
    /\ prepare_filename w ydl_opts info = Ok prepared
    /\ info_fields info !! lit "title" = Some (SStr title)
    /\ name = sanitize_filename title
              ++ (if decide (quality = SStr (lit "audio")) then lit ".mp3"
                  else lit "_" ++ py_str quality ++ lit "p.mp4")
    /\ mimetype = (if decide (quality = SStr (lit "audio")) then lit "audio/mpeg"
                   else lit "video/mp4")
    /\ (mimetype = lit "audio/mpeg" <-> quality = SStr (lit "audio"))
    /\ (quality <> SStr (lit "audio") -> path = prepared)
    /\ (quality = SStr (lit "audio") ->
        forall stem extension,
          prepared = stem ++ lit "." ++ extension -> chr "." ∉ extension ->
          path = stem ++ lit ".mp3").
Proof.
  intros Hrun.
  apply download_video_inv in Hrun as (d & url & -> & _ & Hrun).
  apply download_video_try_inv in Hrun
    as (info & prepared & title & Hinfo & Hprepared & Htitle & _ & [= -> -> ->] & _).
  eexists d, _, _, url, info, prepared, title.
  do 5 (split; [done|]).
  set (quality := default (SStr (lit "720")) (d !! lit "quality")).
  unfold offered_name, offered_mimetype, served_path.
  destruct (decide (quality = SStr (lit "audio"))) as [Haudio|Hvideo].
  - rewrite (proj2 (eq_str_true _ _) Haudio).
    repeat split; try done.
    intros _ stem extension -> Hext.
    pose proof (served_path_audio stem extension Hext) as Hserved.
    unfold served_path in Hserved. by rewrite <- Hserved.
  - destruct (eq_str quality (lit "audio")) eqn:Heq;
      [by apply eq_str_true in Heq|].
    repeat split; try done. 
Qed.

Lemma download_attachment_witness :
  exists d quality,
    audio_request = VDict d
    /\ quality = default (SStr (lit "720")) (d !! lit "quality")
    /\ (lit "audio/mpeg" = lit "audio/mpeg" <-> quality = SStr (lit "audio")).
Proof.
  destruct (download_attachment sample_env audio_request
              (fst (download_video sample_env audio_request))
              (lit "D:\AllVideoSaverTemp\allvideosaver_0123456789abcdef0123456789abcdef.mp3")
              (lit "My_ clip_.mp3") (lit "audio/mpeg"))
    as (d & quality & ? & ? & ? & ? & ? & Hd & Hq & _ & _ & _ & _ & _ & Hiff & _).
  - vm_compute. reflexivity.
  - by exists d, quality.
Defined.

(** ** Traces of the download handler *)

Lemma try_except_trace {A} (body : M A) (handler : exn -> M A) :
  fst (try_except body handler)
  = fst body ++ match snd body with
                | Ok _ => []
                | Raise e => fst (handler e)
                end.
Proof.
  destruct body as [t [a|e]]; simpl; [by rewrite app_nil_r|].
  by destruct (handler e).
Qed.

Lemma download_video_try_events (w : env) (ydl_opts : gmap pystr json) (url : pystr)
    (quality : scalar) :
  Forall (download_event ydl_opts url) (fst (download_video_try w ydl_opts url quality)).
Proof.
  unfold download_video_try, ydl_extract_info, ydl_prepare_filename, info_getitem.
  destruct (extract_info w ydl_opts url true) as [info|e]; monad_step;
    [|by repeat constructor].
  destruct (prepare_filename w ydl_opts info) as [prepared|e]; monad_step;
    [|by repeat constructor].
  destruct (info_fields info !! lit "title") as [[| | | |title]|];
    destruct (eq_str quality (lit "audio")); monad_step; try by repeat constructor.
  all: match goal with
       | |- context [send_file ?w' ?p] => destruct (send_file w' p) as [[]|e]
       end; monad_step; by repeat constructor.
Qed.

(** Either the handler stops at its checks, having done nothing, or the
    body is a dictionary with a usable ['url'] and the [try] statement
    runs. *)
Lemma download_video_cases (w : env) (data : pyval) :
  fst (download_video w data) = []
  \/ exists d url,
       data = VDict d /\ valid_url data url
       /\ download_video w data
          = try_except
              (download_video_try w
                 (download_ydl_opts
                    (os_path_join w DOWNLOAD_FOLDER (lit "allvideosaver_" ++ uuid4_hex w))
                    (default (SStr (lit "720")) (d !! lit "quality")))
                 url (default (SStr (lit "720")) (d !! lit "quality")))
              (download_video_except w).
Proof.
  destruct data as [v|l|d].
  - left. unfold download_video.
    destruct v as [|[]|z|f|s]; cbn [truthy_val truthy negb py_in]; try reflexivity.
    + by destruct (z =? 0).
    + by destruct (float_is_zero f).
    + destruct s; [reflexivity|]. cbn [negb].
      rewrite bind_lift_ok. by destruct (contains _ _).
  - left. unfold download_video. destruct l; [reflexivity|].
    cbn [truthy_val negb py_in]. rewrite bind_lift_ok.
    by destruct (existsb _ _).
  - rewrite download_video_dict.
    destruct (d !! lit "url") as [[| | | |s]|] eqn:Hurl; try by left.
    case_bool_decide as Hblank; [by left|]. right.
    exists d, (strip s). split; [done|]. split; [by exists d, s | done].
Qed.

Lemma download_video_events (w : env) (data : pyval) :
  Forall request_event (fst (download_video w data)).
Proof.
  destruct (download_video_cases w data) as [->|(d & url & _ & _ & ->)]; [constructor|].
  rewrite try_except_trace. apply Forall_app. split.
  - eapply Forall_impl; [apply download_video_try_events|].
    by intros [].
  - destruct (snd _); by repeat constructor.
Qed.

(** ** Delayed clean-up *)

Lemma cleanup_run (w : env) (fs : filesystem) (path : pystr) (delay : Z) :
  _cleanup w fs path delay = (Sleep delay :: cleanup_events w fs path, Ok tt).
Proof.
  unfold _cleanup, cleanup_events.
  destruct (os_path_exists fs path); [|reflexivity].
  by destruct (os_remove fs path) as [[]|e].
Qed.

(** C8. [delayed_cleanup] only starts a thread, with delay 60 unless told
    otherwise, and the download handler always passes 60 and the file it
    serves; the handler itself neither sleeps nor removes anything.  The
    thread sleeps for the delay, then removes the file once if it is still
    there; a failure of the removal is logged as one warning, the thread
    ends normally, nothing is tried again, and the response of the request
    is the same whatever the file system does. *)
Theorem delayed_cleanup_spec (w : env) (fs fs' : filesystem) (path : pystr) (data : pyval) :
  delayed_cleanup path None = ([ThreadStart path 60], Ok tt)
  /\ Forall request_event (fst (download_video w data))
  /\ (forall trace served name mimetype,
        download_video w data = (trace, Ok (Attachment served name mimetype)) ->
        threads_started trace = [(served, 60)])
  /\ (forall delay,
        _cleanup w fs path delay = (Sleep delay :: cleanup_events w fs path, Ok tt))
  /\ (length (filter (fun ev => is_remove ev = true) (cleanup_events w fs path)) <= 1)%nat
  /\ (forall e,
        os_path_exists fs path = true -> os_remove fs path = Raise e ->
        _cleanup w fs path 60
        = ([Sleep 60; Remove path;
            Log WARNING (lit "Could not delete file " ++ path ++ lit ": " ++ str_exn w e)],
           Ok tt))
  /\ fst (fst (serve download_video w fs data)) = fst (fst (serve download_video w fs' data)).
Proof.
  split; [reflexivity|]. split; [apply download_video_events|]. split.
  { intros trace served name mimetype Hrun.
    apply download_video_inv in Hrun as (d & url & _ & _ & Hrun).
    apply download_video_try_inv in Hrun
      as (info & prepared & title & _ & _ & _ & _ & [= -> _ _] & ->).
    reflexivity. }
  split; [intros delay; apply cleanup_run|]. split.
  { unfold cleanup_events. destruct (os_path_exists fs path); [|simpl; lia].
    rewrite filter_cons_True by done.
    destruct (os_remove fs path); simpl; lia. }
  split.
  { intros e Hexists Hremove. rewrite cleanup_run. unfold cleanup_events.
    by rewrite Hexists, Hremove. }
  unfold serve. by destruct (download_video w data).
Qed.

Lemma delayed_cleanup_spec_witness :
  _cleanup sample_env locked_fs (lit "D:\AllVideoSaverTemp\a.mp4") 60
  = ([Sleep 60; Remove (lit "D:\AllVideoSaverTemp\a.mp4");
      Log WARNING (lit "Could not delete file D:\AllVideoSaverTemp\a.mp4: [WinError 32]")],
     Ok tt)
  /\ threads_started (fst (download_video sample_env video_request))
     = [(lit "D:\AllVideoSaverTemp\allvideosaver_0123456789abcdef0123456789abcdef.webm", 60)].
Proof.
  pose proof (delayed_cleanup_spec sample_env locked_fs locked_fs
                (lit "D:\AllVideoSaverTemp\a.mp4") video_request)
    as (_ & _ & Hthreads & _ & _ & Hwarn & _).
  split.
  - apply (Hwarn (Failure (lit "PermissionError") (lit "[WinError 32]"))); reflexivity.
  - apply (Hthreads _ _ (lit "My_ clip__720p.mp4") (lit "video/mp4")).
    vm_compute. reflexivity.
Defined.

(** ** Default quality *)

Lemma download_ydl_opts_format (filepath : pystr) (quality : scalar) :
  download_ydl_opts filepath quality !! lit "format"
  = Some (jstr (get_format_selector quality)).
Proof.
  unfold download_ydl_opts. destruct (eq_str quality (lit "audio")).
  - rewrite lookup_insert_ne by done. rewrite lookup_insert_ne by done.
    by rewrite lookup_insert_eq.
  - rewrite lookup_insert_ne by done. by rewrite lookup_insert_eq.
Qed.

(** ** Temporary file names *)

(** The name of the temporary file is the fixed prefix followed by the
    identifier drawn for the request: two requests get the same name only
    if they drew the same identifier. *)
Lemma temp_name_inj (a b : pystr) :
  lit "allvideosaver_" ++ a = lit "allvideosaver_" ++ b -> a = b.
Proof. apply app_inv_head. Qed.

(** * Further properties of the helpers *)

(** ** Filename sanitizer *)

(** X1. Sanitizing is idempotent, and a name that is already free of the
    nine characters and at most 100 characters long is returned as it
    is. *)
Theorem sanitize_filename_idempotent (filename : pystr) :
  sanitize_filename (sanitize_filename filename) = sanitize_filename filename
  /\ (clean_name filename -> (length filename <= 100)%nat ->
      sanitize_filename filename = filename).
Proof.
  assert (Hfix : forall s, clean_name s -> (length s <= 100)%nat ->
                           sanitize_filename s = s).
  { intros s Hclean Hlen. rewrite sanitize_filename_map.
    rewrite take_ge by (by rewrite length_fmap).
    etrans; [|apply list_fmap_id]. apply list_fmap_ext.
    intros i c Hc. simpl. rewrite bool_decide_eq_false_2; [done|].
    unfold clean_name in Hclean. rewrite Forall_forall in Hclean.
    apply Hclean. by eapply list_elem_of_lookup_2. }
  split; [|apply Hfix].
  apply Hfix.
  - rewrite sanitize_filename_map. apply Forall_take, Forall_fmap, Forall_forall.
    intros c _. simpl. case_bool_decide; [apply underscore_not_invalid | done].
  - rewrite sanitize_filename_map, length_take, length_fmap. lia.
Qed.

Lemma sanitize_filename_idempotent_witness :
  sanitize_filename (lit "holiday clip") = lit "holiday clip".
Proof.
  apply (proj2 (sanitize_filename_idempotent (lit "holiday clip"))).
  - apply (bool_decide_unpack _). by vm_compute.
  - vm_compute. lia.
Defined.

(** ** Duration formatter *)

(** X15. [format_duration] raises in two cases only: [TypeError] for a
    non-empty string and [ValueError] for a float that is not zero.  For
    every other value ([None], a [bool], an [int], the empty string, a zero
    float) it returns a text. *)
Theorem format_duration_raises (v : scalar) (e : exn) :
  format_duration v = Raise e
  <-> (e = TypeError /\ exists s, v = SStr s /\ s <> [])
      \/ (e = ValueError /\ exists f, v = SFloat f /\ float_is_zero f = false).
Proof.
  unfold format_duration. split.
  - destruct v as [|[]|z|f|[|c s]]; cbn [truthy negb as_int]; try discriminate.
    + destruct (negb (negb (z =? 0))); discriminate.
    + destruct (float_is_zero f) eqn:Hf; [discriminate|].
      intros [= <-]. right. split; [done|]. by exists f.
    + intros [= <-]. left. split; [done|]. by exists (c :: s).
  - intros [(-> & s & -> & Hs)|(-> & f & -> & Hf)].
    + by destruct s.
    + cbn [truthy]. by rewrite Hf.
Qed.

Lemma format_duration_raises_witness :
  format_duration (SStr (lit "3:05")) = Raise TypeError
  /\ format_duration (SFloat {| float_is_zero := false; float_text := lit "59.5" |})
     = Raise ValueError.
Proof.
  split.
  - apply (proj2 (format_duration_raises (SStr (lit "3:05")) TypeError)).
    left. split; [reflexivity|]. exists (lit "3:05"). split; [reflexivity | discriminate].
  - apply (proj2 (format_duration_raises _ ValueError)).
    right. split; [reflexivity|]. by eexists.
Defined.

(** ** Platform detector *)

(** X2. [detect_platform] raises [AttributeError] for anything but a
    string.  For a string it returns either one of the five tags, and one
    that occurs in the lower-cased name, or, when none of them occurs, the
    lower-cased name itself; "tiktok" wins over the other tags.  When
    lower-casing leaves the tags alone and is idempotent, detecting the
    platform of a detected platform changes nothing. *)
Theorem detect_platform_spec (w : env) (v : scalar) (s : pystr) :
  ((forall t, v <> SStr t) -> detect_platform w v = Raise AttributeError)
  /\ (exists p, detect_platform w (SStr s) = Ok p
        /\ (p ∈ platform_tags /\ contains p (str_lower w s) = true
            \/ p = str_lower w s
               /\ Forall (fun t => contains t (str_lower w s) = false) platform_tags))
  /\ (contains (lit "tiktok") (str_lower w s) = true ->
      detect_platform w (SStr s) = Ok (lit "tiktok"))
  /\ ((forall t, t ∈ platform_tags -> str_lower w t = t) ->
      (forall x, str_lower w (str_lower w x) = str_lower w x) ->
      forall p, detect_platform w (SStr s) = Ok p -> detect_platform w (SStr p) = Ok p).
Proof.
  assert (Hcases : exists p, detect_platform w (SStr s) = Ok p
        /\ (p ∈ platform_tags /\ contains p (str_lower w s) = true
            \/ p = str_lower w s
               /\ Forall (fun t => contains t (str_lower w s) = false) platform_tags)).
  { unfold detect_platform, platform_tags.
    destruct (contains (lit "tiktok") _) eqn:H1;
      [eexists; split; [done|]; left; split; [set_solver | done]|].
    destruct (contains (lit "youtube") _) eqn:H2;
      [eexists; split; [done|]; left; split; [set_solver | done]|].
    destruct (contains (lit "facebook") _) eqn:H3;
      [eexists; split; [done|]; left; split; [set_solver | done]|].
    destruct (contains (lit "instagram") _) eqn:H4;
      [eexists; split; [done|]; left; split; [set_solver | done]|].
    destruct (contains (lit "twitter") _) eqn:H5;
      [eexists; split; [done|]; left; split; [set_solver | done]|].
    eexists; split; [done|]. right. split; [done|]. by repeat constructor. }
  split; [|split; [exact Hcases|split]].
  - intros Hv. destruct v as [| | | |t]; try reflexivity. by destruct (Hv t).
  - intros Htik. unfold detect_platform. by rewrite Htik.
  - intros Htags Hidem p Hp.
    destruct Hcases as (p' & Hp' & Hshape). rewrite Hp in Hp'. injection Hp' as <-.
    destruct Hshape as [[Htag _]|[-> Hnone]].
    + unfold detect_platform. rewrite (Htags _ Htag).
      unfold platform_tags in Htag.
      repeat (apply elem_of_cons in Htag as [->|Htag]); try reflexivity.
      by apply elem_of_nil in Htag.
    + unfold detect_platform. rewrite Hidem.
      unfold platform_tags in Hnone.
      repeat (apply Forall_cons in Hnone as [-> Hnone]). reflexivity.
Qed.

Lemma detect_platform_spec_witness :
  detect_platform sample_env (SNone) = Raise AttributeError
  /\ detect_platform sample_env (SStr (lit "youtube:tab")) = Ok (lit "youtube")
  /\ detect_platform sample_env (SStr (lit "youtube")) = Ok (lit "youtube").
Proof.
  pose proof (detect_platform_spec sample_env SNone (lit "youtube:tab"))
    as (Hraise & _ & _ & Hidem).
  split; [by apply Hraise|]. split; [reflexivity|].
  by apply Hidem.
Defined.

(** * Further properties of the handlers *)

(** ** Stripping *)

Lemma rstrip_cons_no_space (c : N) (s : pystr) :
  is_space c = false -> rstrip (c :: s) = c :: rstrip s.
Proof. intros Hc. simpl. destruct (rstrip s); by rewrite ?Hc. Qed.

Lemma rstrip_cons (c : N) (s : pystr) :
  rstrip (c :: s)
  = match rstrip s with
    | [] => if is_space c then [] else [c]
    | r => c :: r
    end.
Proof. reflexivity. Qed.

Lemma rstrip_idempotent (s : pystr) : rstrip (rstrip s) = rstrip s.
Proof.
  induction s as [|c s IH]; [done|].
  rewrite rstrip_cons. destruct (rstrip s) as [|x r] eqn:Hr.
  - destruct (is_space c) eqn:Hc; [done|]. simpl. by rewrite Hc.
  - rewrite rstrip_cons. by rewrite IH.
Qed.

Lemma lstrip_shape (s : pystr) :
  lstrip s = [] \/ exists c r, lstrip s = c :: r /\ is_space c = false.
Proof.
  induction s as [|c s IH]; [by left|].
  simpl. destruct (is_space c) eqn:Hc; [exact IH|]. right. eauto.
Qed.

(** Stripping a stripped string changes nothing. *)
Lemma strip_idempotent (s : pystr) : strip (strip s) = strip s.
Proof.
  unfold strip. destruct (lstrip_shape s) as [->|(c & r & -> & Hc)]; [done|].
  rewrite rstrip_cons_no_space by done.
  rewrite lstrip_no_space by done.
  rewrite <- rstrip_cons_no_space by done. apply rstrip_idempotent.
Qed.

(** ** Outcomes of the checks *)

(** Every run of a handler stops at its checks with status 400, or with a
    [TypeError] or an [AttributeError] and no effect, or reaches its [try]
    statement with the stripped ['url']. *)
Lemma fetch_video_info_outcomes (w : env) (data : pyval) :
  (exists message, fetch_video_info w data = ([], Ok (Json (error_body message) 400)))
  \/ fetch_video_info w data = ([], Raise TypeError)
  \/ fetch_video_info w data = ([], Raise AttributeError)
  \/ exists url,
       valid_url data url
       /\ fetch_video_info w data
          = try_except (fetch_video_info_try w fetch_ydl_opts url)
                       (fetch_video_info_except w).
Proof.
  destruct data as [v|l|d].
  - unfold fetch_video_info.
    destruct v as [|[]|z|f|s]; cbn [truthy_val truthy negb py_in]; eauto.
    + destruct (z =? 0); cbn [negb]; eauto.
    + destruct (float_is_zero f); cbn [negb]; eauto.
    + destruct s; [by eauto|]. cbn [negb].
      rewrite bind_lift_ok. destruct (contains _ _); cbn [negb]; eauto.
  - unfold fetch_video_info. destruct l; [by eauto|].
    cbn [truthy_val negb py_in]. rewrite bind_lift_ok.
    destruct (existsb _ _); cbn [negb]; eauto.
  - rewrite fetch_video_info_dict.
    destruct (d !! lit "url") as [[| | | |s]|] eqn:Hurl; eauto.
    case_bool_decide as Hblank; [by eauto|].
    do 3 right. exists (strip s). split; [by exists d, s | done].
Qed.

Lemma download_video_outcomes (w : env) (data : pyval) :
  (exists message, download_video w data = ([], Ok (Json (error_body message) 400)))
  \/ download_video w data = ([], Raise TypeError)
  \/ download_video w data = ([], Raise AttributeError)
  \/ exists d url,
       data = VDict d /\ valid_url data url
       /\ download_video w data
          = try_except
              (download_video_try w
                 (download_ydl_opts
                    (os_path_join w DOWNLOAD_FOLDER (lit "allvideosaver_" ++ uuid4_hex w))
                    (default (SStr (lit "720")) (d !! lit "quality")))
                 url (default (SStr (lit "720")) (d !! lit "quality")))
              (download_video_except w).
Proof.
  destruct data as [v|l|d].
  - unfold download_video.
    destruct v as [|[]|z|f|s]; cbn [truthy_val truthy negb py_in]; eauto.
    + destruct (z =? 0); cbn [negb]; eauto.
    + destruct (float_is_zero f); cbn [negb]; eauto.
    + destruct s; [by eauto|]. cbn [negb].
      rewrite bind_lift_ok. destruct (contains _ _); cbn [negb]; eauto.
  - unfold download_video. destruct l; [by eauto|].
    cbn [truthy_val negb py_in]. rewrite bind_lift_ok.
    destruct (existsb _ _); cbn [negb]; eauto.
  - rewrite download_video_dict.
    destruct (d !! lit "url") as [[| | | |s]|] eqn:Hurl; eauto.
    case_bool_decide as Hblank; [by eauto|].
    do 3 right. exists d, (strip s). split; [done|]. split; [by exists d, s | done].
Qed.

Lemma try_except_never_raises {A} (body : M A) (handler : exn -> M A)
    (trace : list event) (e : exn) :
  (forall e', exists t a, handler e' = (t, Ok a)) ->
  try_except body handler <> (trace, Raise e).
Proof.
  intros Hh Hrun. destruct (try_except_answers body handler Hh) as (t & a & Hok).
  congruence.
Qed.

(** X6. An exception leaves a view function only from
    [request.get_json()] itself, whose exception is passed on unchanged, or
    from the checks before the [try]: then it is a [TypeError] or an
    [AttributeError] and the body had no usable ['url'].  In either case
    nothing was done before it (no library call, no log line).  A dictionary
    whose ['url'] is not a string is such a body: both view functions raise
    [AttributeError] on it. *)
Theorem escaping_exceptions (w : env) (request : flask_request)
    (trace : list event) (e : exn) :
  (fetch_video_info_view w request = (trace, Raise e)
   \/ download_video_view w request = (trace, Raise e) ->
   trace = []
   /\ (get_json request = Raise e
       \/ exists data,
            get_json request = Ok data
            /\ (e = TypeError \/ e = AttributeError)
            /\ forall url, ~ valid_url data url))
  /\ (get_json request = Raise e ->
      fetch_video_info_view w request = ([], Raise e)
      /\ download_video_view w request = ([], Raise e))
  /\ (forall d v,
        get_json request = Ok (VDict d) -> d !! lit "url" = Some v ->
        (forall s, v <> SStr s) ->
        fetch_video_info_view w request = ([], Raise AttributeError)
        /\ download_video_view w request = ([], Raise AttributeError)).
Proof.
  unfold fetch_video_info_view, download_video_view.
  destruct (get_json request) as [data|e'] eqn:Hjson; rewrite ?bind_lift_ok.
  2:{ split; [|split].
      - intros [[= <- <-]|[= <- <-]]; split; auto.
      - intros [= <-]. by split.
      - discriminate. }
  split; [|split; [discriminate|]].
  - assert (Hno : forall d s u, d !! lit "url" = Some (SStr s) -> strip s = u -> u <> [] ->
                    fetch_video_info w (VDict d) <> (trace, Raise e)
                    /\ download_video w (VDict d) <> (trace, Raise e)).
    { intros d s u Hurl Hs Hu.
      rewrite fetch_video_info_dict, download_video_dict, Hurl.
      rewrite bool_decide_eq_false_2 by congruence. cbv zeta.
      split; apply try_except_never_raises; intros e'; by eexists _, _. }
    assert (Hinvalid : fetch_video_info w data = (trace, Raise e)
                       \/ download_video w data = (trace, Raise e) ->
                       forall url, ~ valid_url data url).
    { intros Hrun url (d & s & -> & Hurl & Hs & Hu).
      destruct (Hno d s url Hurl Hs Hu) as [Hf Hd]. by destruct Hrun. }
    intros Hrun. pose proof (Hinvalid Hrun) as Hbody.
    enough (trace = [] /\ (e = TypeError \/ e = AttributeError)) as [-> He]
      by (split; [done|]; right; by exists data).
    destruct Hrun as [Hrun|Hrun].
    + destruct (fetch_video_info_outcomes w data)
        as [(m & H)|[H|[H|(url & Hvalid & H)]]];
        [| | |by destruct (Hbody url)]; rewrite H in Hrun; try discriminate;
        injection Hrun as <- <-; auto.
    + destruct (download_video_outcomes w data)
        as [(m & H)|[H|[H|(d & url & -> & Hvalid & H)]]];
        [| | |by destruct (Hbody url)]; rewrite H in Hrun; try discriminate;
        injection Hrun as <- <-; auto.
  - intros d v [= ->] Hurl Hv.
    rewrite fetch_video_info_dict, download_video_dict, Hurl.
    destruct v as [| | | |s]; try done. by destruct (Hv s).
Qed.

Lemma escaping_exceptions_witness :
  fetch_video_info_view sample_env
    {| get_json := Raise (Failure (lit "BadRequest") (lit "400 Bad Request")) |}
  = ([], Raise (Failure (lit "BadRequest") (lit "400 Bad Request")))
  /\ download_video_view sample_env (request_with (body [("url"%string, SInt 5)]))
     = ([], Raise AttributeError)
  /\ forall url, ~ valid_url (body [("url"%string, SInt 5)]) url.
Proof.
  split; [|split].
  - by apply (proj1 (proj2 (escaping_exceptions sample_env
                {| get_json := Raise (Failure (lit "BadRequest") (lit "400 Bad Request")) |}
                [] (Failure (lit "BadRequest") (lit "400 Bad Request"))))).
  - by eapply (proj2 (proj2 (escaping_exceptions sample_env
                 (request_with (body [("url"%string, SInt 5)])) [] AttributeError))
               _ (SInt 5)).
  - destruct (proj1 (escaping_exceptions sample_env
                (request_with (body [("url"%string, SInt 5)])) [] AttributeError))
      as (_ & [Hjson|(data & [= <-] & _ & Hbody)]);
      [by left | discriminate Hjson | exact Hbody].
Defined.

(** X16. The guard of both view functions answers with status 400 and an
    ['error'] body, without calling the extraction library, for every
    parsed body that is false ([None], 0, [False], empty), is a dictionary
    without ['url'], a list that does not hold the text 'url', a text in
    which 'url' does not occur, or a dictionary whose ['url'] is a text
    that is empty once stripped. *)
Theorem guard_answers_400 (w : env) (request : flask_request) (data : pyval) :
  get_json request = Ok data -> guard_answers data ->
  rejected (fetch_video_info_view w request)
  /\ rejected (download_video_view w request).
Proof.
  intros Hjson Hdata. unfold fetch_video_info_view, download_video_view.
  rewrite Hjson, !bind_lift_ok. by apply guard_answers_rejected.
Qed.

Lemma guard_answers_400_witness :
  rejected (fetch_video_info_view sample_env
              (request_with (body [("url"%string, SStr (lit "   "))])))
  /\ rejected (download_video_view sample_env (request_with (VScalar (SStr (lit "hello"))))).
Proof.
  split.
  - apply (guard_answers_400 sample_env _ (body [("url"%string, SStr (lit "   "))]));
      [reflexivity|].
    do 4 right. eexists _, (lit "   "). by repeat split.
  - apply (guard_answers_400 sample_env _ (VScalar (SStr (lit "hello")))); [reflexivity|].
    do 3 right. left. eexists. by split.
Defined.

(** ** The metadata handler *)

(** X3. When the ['url'] is usable, the extraction succeeds and the three
    helpers return, [fetch_video_info] answers with status 200 and a JSON
    object that has exactly the keys title, duration, thumbnail, platform
    and formats, filled from the metadata (a missing title becomes "Unknown
    Title", a missing thumbnail the empty string); it called the library
    once, in metadata-only mode, and logged one line. *)
Theorem fetch_video_info_success (w : env) (d : gmap pystr scalar) (url : pystr)
    (info : info_dict) (duration platform : pystr) (formats : list format_entry) :
  valid_url (VDict d) url ->
  extract_info w fetch_ydl_opts url false = Ok info ->
  format_duration (default (SInt 0) (info_fields info !! lit "duration")) = Ok duration ->
  detect_platform w (default (SStr (lit "")) (info_fields info !! lit "extractor"))
  = Ok platform ->
  get_available_formats info = Ok formats ->
  let title := default (SStr (lit "Unknown Title")) (info_fields info !! lit "title") in
  exists answer,
    fetch_video_info w (VDict d)
    = ([Extract fetch_ydl_opts url false; Log INFO (lit "Fetched info: " ++ py_str title)],
       Ok (Json (JObj answer) 200))
    /\ answer !! lit "title" = Some (JVal title)
    /\ answer !! lit "duration" = Some (jstr duration)
    /\ answer !! lit "thumbnail"
       = Some (JVal (default (SStr (lit "")) (info_fields info !! lit "thumbnail")))
    /\ answer !! lit "platform" = Some (jstr platform)
    /\ answer !! lit "formats" = Some (JArr (entry_json <$> formats))
    /\ forall key, is_Some (answer !! key) -> key ∈ video_info_keys.
Proof.
  intros (d' & s & [= <-] & Hurl & <- & Hne) Hinfo Hduration Hplatform Hformats title.
  rewrite fetch_video_info_dict, Hurl, bool_decide_eq_false_2 by done.
  unfold fetch_video_info_try, ydl_extract_info.
  rewrite Hinfo. monad_step. rewrite Hduration. monad_step.
  rewrite Hplatform. monad_step. rewrite Hformats. monad_step.
  eexists. split; [reflexivity|].
  split; [apply lookup_insert_eq|].
  split; [rewrite !lookup_insert_ne by done; apply lookup_insert_eq|].
  split; [rewrite !lookup_insert_ne by done; apply lookup_insert_eq|].
  split; [rewrite !lookup_insert_ne by done; apply lookup_insert_eq|].
  split; [rewrite !lookup_insert_ne by done; apply lookup_singleton_eq|].
  intros key. unfold video_info_keys.
  rewrite !lookup_insert_is_Some, lookup_singleton_is_Some, !elem_of_cons.
  intuition congruence.
Qed.

Lemma fetch_video_info_success_witness :
  exists answer,
    snd (fetch_video_info sample_env video_request) = Ok (Json (JObj answer) 200)
    /\ answer !! lit "duration" = Some (jstr (lit "1:01:01"))
    /\ answer !! lit "platform" = Some (jstr (lit "youtube"))
    /\ answer !! lit "formats" = Some (JArr []).
Proof.
  destruct (fetch_video_info_success sample_env
              (list_to_map [(lit "url", SStr (lit "http://x/"))]) (lit "http://x/")
              sample_info (lit "1:01:01") (lit "youtube") [])
    as (answer & Hrun & _ & Hduration & _ & Hplatform & Hformats & _);
    try reflexivity.
  - eexists _, (lit "http://x/"). by repeat split.
  - exists answer. unfold video_request, body. cbn [fmap list_fmap fst snd].
    rewrite Hrun. by repeat split.
Defined.

(** X4. When the extraction succeeds but a helper raises on the metadata
    (the duration formatter, then the platform detector, then the format
    lister), [fetch_video_info] answers with status 500 and the text of that
    exception, after one library call and one error log line. *)
Theorem fetch_video_info_mapping_failure (w : env) (d : gmap pystr scalar) (url : pystr)
    (info : info_dict) (e : exn) :
  valid_url (VDict d) url ->
  extract_info w fetch_ydl_opts url false = Ok info ->
  let duration := format_duration (default (SInt 0) (info_fields info !! lit "duration")) in
  let platform :=
    detect_platform w (default (SStr (lit "")) (info_fields info !! lit "extractor")) in
  duration = Raise e
  \/ (exists t, duration = Ok t) /\ platform = Raise e
  \/ (exists t, duration = Ok t) /\ (exists p, platform = Ok p)
     /\ get_available_formats info = Raise e ->
  fetch_video_info w (VDict d)
  = ([Extract fetch_ydl_opts url false;
      Log ERROR (lit "Error fetching info: " ++ str_exn w e)],
     Ok (Json (error_body (str_exn w e)) 500)).
Proof.
  intros (d' & s & [= <-] & Hurl & <- & Hne) Hinfo duration platform Hraise.
  rewrite fetch_video_info_dict, Hurl, bool_decide_eq_false_2 by done.
  unfold fetch_video_info_try, ydl_extract_info.
  rewrite Hinfo. monad_step. fold duration platform.
  destruct Hraise as [->|[[[t ->] ->]|([t ->] & [p ->] & ->)]]; reflexivity.
Qed.

Lemma fetch_video_info_mapping_failure_witness :
  fetch_video_info (env_with text_duration_info (Ok tt)) video_request
  = ([Extract fetch_ydl_opts (lit "http://x/") false;
      Log ERROR (lit "Error fetching info: error")],
     Ok (Json (error_body (lit "error")) 500)).
Proof.
  apply (fetch_video_info_mapping_failure (env_with text_duration_info (Ok tt))
           (list_to_map [(lit "url", SStr (lit "http://x/"))]) (lit "http://x/")
           text_duration_info TypeError).
  - eexists _, (lit "http://x/"). by repeat split.
  - reflexivity.
  - left. reflexivity.
Defined.

(** The [try] statement of [fetch_video_info] always performs two events:
    the library call, then one log line. *)
Lemma fetch_video_info_run_shape (w : env) (url : pystr) :
  let run := try_except (fetch_video_info_try w fetch_ydl_opts url)
                        (fetch_video_info_except w) in
  (exists message answer,
     run = ([Extract fetch_ydl_opts url false; Log INFO message],
            Ok (Json (JObj answer) 200)))
  \/ (exists e,
        run = ([Extract fetch_ydl_opts url false;
                Log ERROR (lit "Error fetching info: " ++ str_exn w e)],
               Ok (Json (error_body (str_exn w e)) 500))).
Proof.
  unfold fetch_video_info_try, ydl_extract_info.
  destruct (extract_info w fetch_ydl_opts url false) as [info|e]; monad_step;
    [|right; by exists e].
  destruct (format_duration _) as [duration|e]; monad_step; [|right; by exists e].
  destruct (detect_platform w _) as [platform|e]; monad_step; [|right; by exists e].
  destruct (get_available_formats info) as [formats|e]; monad_step; [|right; by exists e].
  left. by eexists _, _.
Qed.

(** X5. [fetch_video_info] either stops at its checks without doing
    anything, or performs exactly two events: one call of [extract_info]
    with its own options, the stripped ['url'] (not empty, no surrounding
    whitespace) and [download=False], then one log line, INFO with status
    200 or ERROR with status 500.  It never prepares a file name, sends a
    file or starts a clean-up thread. *)
Theorem fetch_video_info_trace (w : env) (data : pyval) :
  fst (fetch_video_info w data) = []
  \/ exists url level message,
       valid_url data url /\ strip url = url
       /\ fst (fetch_video_info w data)
          = [Extract fetch_ydl_opts url false; Log level message]
       /\ (level = INFO
           /\ (exists answer, snd (fetch_video_info w data) = Ok (Json (JObj answer) 200))
           \/ level = ERROR
              /\ (exists text, snd (fetch_video_info w data)
                               = Ok (Json (error_body text) 500))).
Proof.
  destruct (fetch_video_info_outcomes w data)
    as [(m & ->)|[->|[->|(url & Hvalid & ->)]]]; try by left.
  right. assert (Hstrip : strip url = url).
  { destruct Hvalid as (d & s & _ & _ & <- & _). apply strip_idempotent. }
  destruct (fetch_video_info_run_shape w url) as [(m & answer & ->)|(e & ->)].
  - exists url, INFO, m. repeat split; try done. left. split; [done|]. by exists answer.
  - exists url, ERROR, (lit "Error fetching info: " ++ str_exn w e).
    repeat split; try done. right. split; [done|]. by eexists.
Qed.

(** ** The download handler *)

(** The four ways the [try] statement of [download_video] can go. *)
Lemma download_video_run_shape (w : env) (ydl_opts : gmap pystr json) (url : pystr)
    (quality : scalar) :
  let run := try_except (download_video_try w ydl_opts url quality)
                        (download_video_except w) in
  let failure e := Log ERROR (lit "Download error: " ++ str_exn w e) in
  (exists e,
     run = ([Extract ydl_opts url true; failure e],
            Ok (Json (error_body (str_exn w e)) 500)))
  \/ (exists e,
        run = ([Extract ydl_opts url true; PrepareFilename ydl_opts; failure e],
               Ok (Json (error_body (str_exn w e)) 500)))
  \/ (exists message path e,
        run = ([Extract ydl_opts url true; PrepareFilename ydl_opts;
                Log INFO message; ThreadStart path 60; SendFile path; failure e],
               Ok (Json (error_body (str_exn w e)) 500)))
  \/ (exists message path name mimetype,
        run = ([Extract ydl_opts url true; PrepareFilename ydl_opts;
                Log INFO message; ThreadStart path 60; SendFile path],
               Ok (Attachment path name mimetype))).
Proof.
  unfold download_video_try, ydl_extract_info, ydl_prepare_filename, info_getitem.
  destruct (extract_info w ydl_opts url true) as [info|e]; monad_step;
    [|left; by exists e].
  destruct (prepare_filename w ydl_opts info) as [prepared|e]; monad_step;
    [|right; left; by exists e].
  destruct (info_fields info !! lit "title") as [[| | | |title]|];
    destruct (eq_str quality (lit "audio")); monad_step;
    try (right; left; by eexists).
  all: match goal with
       | |- context [send_file ?w' ?p] => destruct (send_file w' p) as [[]|e]
       end; monad_step.
  all: try (right; right; right; by eexists _, _, _, _).
  all: right; right; left; by eexists _, _, e.
Qed.

(** X7. [download_video] either stops at its checks without doing
    anything, or calls [extract_info] exactly once, first of all, with
    [download=True] and the stripped ['url'] (not empty, no surrounding
    whitespace).  After that either no clean-up thread is started and
    [send_file] is not called, or exactly one thread is started, with delay
    60 and for the very path that [send_file] is then called with. *)
Theorem download_video_trace (w : env) (data : pyval) :
  fst (download_video w data) = []
  \/ exists d url rest,
       data = VDict d /\ valid_url data url /\ strip url = url
       /\ fst (download_video w data)
          = Extract (download_ydl_opts
                       (os_path_join w DOWNLOAD_FOLDER (lit "allvideosaver_" ++ uuid4_hex w))
                       (default (SStr (lit "720")) (d !! lit "quality")))
                    url true :: rest
       /\ Forall (fun ev => is_extract ev = false) rest
       /\ (threads_started rest = [] /\ (forall path, SendFile path ∉ rest)
           \/ exists path before after,
                threads_started rest = [(path, 60)]
                /\ rest = before ++ [ThreadStart path 60; SendFile path] ++ after
                /\ forall other, SendFile other ∈ rest -> other = path).
Proof.
  destruct (download_video_outcomes w data)
    as [(m & ->)|[->|[->|(d & url & -> & Hvalid & ->)]]]; try by left.
  right. assert (Hstrip : strip url = url).
  { destruct Hvalid as (d' & s & _ & _ & <- & _). apply strip_idempotent. }
  exists d, url.
  destruct (download_video_run_shape w
              (download_ydl_opts
                 (os_path_join w DOWNLOAD_FOLDER (lit "allvideosaver_" ++ uuid4_hex w))
                 (default (SStr (lit "720")) (d !! lit "quality")))
              url (default (SStr (lit "720")) (d !! lit "quality")))
    as [(e & ->)|[(e & ->)|[(m & p & e & ->)|(m & p & n & mt & ->)]]];
    eexists; (split; [done|]); (split; [done|]); (split; [done|]);
    (split; [reflexivity|]); (split; [by repeat constructor|]).
  - left. split; [done|]. intros path Hin.
    repeat (apply elem_of_cons in Hin as [Hin|Hin]; [discriminate|]).
    by apply elem_of_nil in Hin.
  - left. split; [done|]. intros path Hin.
    repeat (apply elem_of_cons in Hin as [Hin|Hin]; [discriminate|]).
    by apply elem_of_nil in Hin.
  - right. eexists p, [_; _], [_].
    split; [done|]. split; [reflexivity|]. intros other Hin.
    repeat (apply elem_of_cons in Hin as [Hin|Hin]; [try discriminate; congruence|]).
    by apply elem_of_nil in Hin.
  - right. eexists p, [_; _], [].
    split; [done|]. split; [reflexivity|]. intros other Hin.
    repeat (apply elem_of_cons in Hin as [Hin|Hin]; [try discriminate; congruence|]).
    by apply elem_of_nil in Hin.
Qed.

(** X8. When the file was fetched but the metadata has no title that is a
    string, [download_video] answers with status 500 (a [KeyError] for a
    missing title, an [AttributeError] for one that is not a string); no
    clean-up thread is started for the file that was written and
    [send_file] is not called. *)
Theorem download_without_title (w : env) (d : gmap pystr scalar) (url : pystr)
    (info : info_dict) (prepared : pystr) :
  valid_url (VDict d) url ->
  let quality := default (SStr (lit "720")) (d !! lit "quality") in
  let filepath := os_path_join w DOWNLOAD_FOLDER (lit "allvideosaver_" ++ uuid4_hex w) in
  let ydl_opts := download_ydl_opts filepath quality in
  extract_info w ydl_opts url true = Ok info ->
  prepare_filename w ydl_opts info = Ok prepared ->
  (forall title, info_fields info !! lit "title" <> Some (SStr title)) ->
  exists e,
    (e = KeyError (lit "title") /\ info_fields info !! lit "title" = None
     \/ e = AttributeError /\ is_Some (info_fields info !! lit "title"))
    /\ download_video w (VDict d)
       = ([Extract ydl_opts url true; PrepareFilename ydl_opts;
           Log ERROR (lit "Download error: " ++ str_exn w e)],
          Ok (Json (error_body (str_exn w e)) 500))
    /\ threads_started (fst (download_video w (VDict d))) = [].
Proof.
  intros (d' & s & [= <-] & Hurl & <- & Hne) quality filepath ydl_opts
    Hinfo Hprepared Htitle.
  rewrite download_video_dict, Hurl, bool_decide_eq_false_2 by done.
  cbv zeta. fold quality filepath ydl_opts.
  unfold download_video_try, ydl_extract_info, ydl_prepare_filename, info_getitem.
  rewrite Hinfo. monad_step. rewrite Hprepared. monad_step.
  destruct (info_fields info !! lit "title") as [[| | | |title]|] eqn:Hlookup;
    [| | | |by destruct (Htitle title)|];
    destruct (eq_str quality (lit "audio")); monad_step;
    eexists; (split; [|split; reflexivity]); eauto.
Qed.

Lemma download_without_title_witness :
  download_video (env_with untitled_info (Ok tt)) video_request
  = ([Extract (download_ydl_opts (lit "D:\AllVideoSaverTemp\allvideosaver_0")
                 (SStr (lit "720"))) (lit "http://x/") true;
      PrepareFilename (download_ydl_opts (lit "D:\AllVideoSaverTemp\allvideosaver_0")
                         (SStr (lit "720")));
      Log ERROR (lit "Download error: error")],
     Ok (Json (error_body (lit "error")) 500)).
Proof.
  destruct (download_without_title (env_with untitled_info (Ok tt))
              (list_to_map [(lit "url", SStr (lit "http://x/"))]) (lit "http://x/")
              untitled_info (lit "D:\AllVideoSaverTemp\allvideosaver_0.mp4"))
    as (e & [[-> _]|[-> _]] & Hrun & _);
    [eexists _, (lit "http://x/"); by repeat split
    | reflexivity | reflexivity | intros title; discriminate
    | exact Hrun | exact Hrun].
Defined.

(** X9. When everything up to [send_file] succeeds and [send_file] raises,
    [download_video] answers with status 500 and the text of that
    exception; the clean-up thread for the file was already started, with
    delay 60, before [send_file] was called. *)
Theorem download_send_failure (w : env) (d : gmap pystr scalar) (url : pystr)
    (info : info_dict) (prepared title : pystr) (e : exn) :
  valid_url (VDict d) url ->
  let quality := default (SStr (lit "720")) (d !! lit "quality") in
  let filepath := os_path_join w DOWNLOAD_FOLDER (lit "allvideosaver_" ++ uuid4_hex w) in
  let ydl_opts := download_ydl_opts filepath quality in
  extract_info w ydl_opts url true = Ok info ->
  prepare_filename w ydl_opts info = Ok prepared ->
  info_fields info !! lit "title" = Some (SStr title) ->
  send_file w (served_path quality prepared) = Raise e ->
  download_video w (VDict d)
  = ([Extract ydl_opts url true; PrepareFilename ydl_opts;
      Log INFO (lit "Downloaded: " ++ title);
      ThreadStart (served_path quality prepared) 60;
      SendFile (served_path quality prepared);
      Log ERROR (lit "Download error: " ++ str_exn w e)],
     Ok (Json (error_body (str_exn w e)) 500)).
Proof.
  intros (d' & s & [= <-] & Hurl & <- & Hne) quality filepath ydl_opts
    Hinfo Hprepared Htitle Hsend.
  rewrite download_video_dict, Hurl, bool_decide_eq_false_2 by done.
  cbv zeta. fold quality filepath ydl_opts.
  unfold download_video_try, ydl_extract_info, ydl_prepare_filename, info_getitem.
  rewrite Hinfo. monad_step. rewrite Hprepared. monad_step. rewrite Htitle.
  unfold served_path in *.
  destruct (eq_str quality (lit "audio")); monad_step; rewrite Hsend; reflexivity.
Qed.

Lemma download_send_failure_witness :
  threads_started
    (fst (download_video
            (env_with bare_info (Raise (Failure (lit "FileNotFoundError") (lit "gone"))))
            video_request))
  = [(lit "D:\AllVideoSaverTemp\allvideosaver_0.mp4", 60)]
  /\ failed_with (lit "gone")
       (download_video
          (env_with bare_info (Raise (Failure (lit "FileNotFoundError") (lit "gone"))))
          video_request).
Proof.
  pose proof (download_send_failure
                (env_with bare_info (Raise (Failure (lit "FileNotFoundError") (lit "gone"))))
                (list_to_map [(lit "url", SStr (lit "http://x/"))]) (lit "http://x/")
                bare_info (lit "D:\AllVideoSaverTemp\allvideosaver_0.mp4") (lit "clip")
                (Failure (lit "FileNotFoundError") (lit "gone"))) as Hrun.
  unfold video_request, body, failed_with. cbn [fmap list_fmap fst snd] in *.
  rewrite Hrun; try reflexivity.
  - by split.
  - eexists _, (lit "http://x/"). by repeat split.
Defined.

(** ** Names offered to the client *)

Lemma sanitize_filename_clean (title : pystr) : clean_name (sanitize_filename title).
Proof.
  rewrite sanitize_filename_map. apply Forall_take, Forall_fmap, Forall_forall.
  intros c _. simpl. case_bool_decide; [apply underscore_not_invalid | done].
Qed.

Lemma sanitize_filename_length (title : pystr) :
  (length (sanitize_filename title) <= 100)%nat.
Proof. rewrite sanitize_filename_map, length_take. lia. Qed.

(** X10. The name of a successful download is at most 100 characters of
    title followed by the suffix.  It is free of the nine forbidden
    characters when the quality is "audio" or the text of the quality is;
    the quality itself is not sanitized: for a quality other than "audio",
    every character of its text is in the name. *)
Theorem download_name_clean (w : env) (d : gmap pystr scalar) (trace : list event)
    (path name mimetype : pystr) :
  download_video w (VDict d) = (trace, Ok (Attachment path name mimetype)) ->
  let quality := default (SStr (lit "720")) (d !! lit "quality") in
  (quality = SStr (lit "audio") \/ clean_name (py_str quality) -> clean_name name)
  /\ (length name <= 100 + length (py_str quality) + 6)%nat
  /\ (quality <> SStr (lit "audio") -> forall c, c ∈ py_str quality -> c ∈ name).
Proof.
  intros Hrun quality.
  apply download_video_inv in Hrun as (d' & url & [= <-] & _ & Hrun).
  apply download_video_try_inv in Hrun
    as (info & prepared & title & _ & _ & _ & _ & [= _ -> _] & _).
  fold quality. unfold offered_name.
  destruct (eq_str quality (lit "audio")) eqn:Haudio.
  - split; [|split].
    + intros _. apply Forall_app. split; [apply sanitize_filename_clean|].
      apply (bool_decide_unpack _). by vm_compute.
    + rewrite length_app. pose proof (sanitize_filename_length title).
      change (length (lit ".mp3")) with 4%nat. lia.
    + intros Hq. by apply eq_str_true in Haudio.
  - split; [|split].
    + intros [Hq|Hclean]; [apply eq_str_true in Hq; congruence|].
      repeat (apply Forall_app; split); try done.
      * apply sanitize_filename_clean.
      * apply (bool_decide_unpack _). by vm_compute.
      * apply (bool_decide_unpack _). by vm_compute.
    + rewrite !length_app. pose proof (sanitize_filename_length title).
      change (length (lit "_")) with 1%nat. change (length (lit "p.mp4")) with 5%nat. lia.
    + intros _ c Hc. rewrite !elem_of_app. auto.
Qed.

Lemma download_name_clean_witness :
  clean_name (lit "My_ clip__720p.mp4")
  /\ (length (lit "My_ clip__720p.mp4") <= 100 + length (lit "720") + 6)%nat.
Proof.
  pose proof (download_name_clean sample_env
                (list_to_map [(lit "url", SStr (lit "http://x/"))])
                (fst (download_video sample_env video_request))
                (lit "D:\AllVideoSaverTemp\allvideosaver_0123456789abcdef0123456789abcdef.webm")
                (lit "My_ clip__720p.mp4") (lit "video/mp4"))
    as (Hclean & Hlength & _).
  - vm_compute. reflexivity.
  - split; [|exact Hlength]. apply Hclean. right.
    apply (bool_decide_unpack _). by vm_compute.
Defined.

(** * Further properties of the format lister *)

Lemma keys_of_inv {A} (key : A -> res Z) (l : list A) (kl : list (Z * A)) :
  keys_of key l = Ok kl ->
  snd <$> kl = l /\ Forall (fun kx => key (snd kx) = Ok (fst kx)) kl.
Proof.
  revert kl. induction l as [|x l IH]; intros kl; cbn [keys_of].
  - intros [= <-]. by split.
  - destruct (key x) as [k|e] eqn:Hk; [|discriminate].
    destruct (keys_of key l) as [kl'|e]; [|discriminate].
    intros [= <-]. destruct (IH kl' eq_refl) as [Hsnd Hall].
    split; [by cbn; rewrite Hsnd | by constructor].
Qed.

Lemma keys_of_raise {A} (key : A -> res Z) (l : list A) (e : exn) :
  keys_of key l = Raise e -> exists x, x ∈ l /\ key x = Raise e.
Proof.
  induction l as [|x l IH]; cbn [keys_of]; [discriminate|].
  destruct (key x) as [k|e'] eqn:Hk.
  - destruct (keys_of key l) as [kl|e']; [discriminate|].
    intros [= ->]. destruct (IH eq_refl) as (y & Hy & Hkey).
    exists y. split; [by right | done].
  - intros [= ->]. exists x. split; [left | done].
Qed.

Lemma first_occurrences_length (l : list format_entry) :
  (length (first_occurrences l) <= length l)%nat.
Proof.
  induction l as [|x l IH]; [done|].
  cbn [first_occurrences length].
  pose proof (length_filter (fun y => quality y <> quality x) (first_occurrences l)).
  lia.
Qed.

Lemma descending_NoDup (heights : list Z) :
  descending heights -> NoDup heights -> strictly_descending heights.
Proof.
  unfold descending, strictly_descending.
  induction 1 as [|a l _ IH Hall]; intros Hnodup; [constructor|].
  apply NoDup_cons in Hnodup as [Ha Hl]. constructor; [by apply IH|].
  rewrite Forall_forall in Hall |- *. intros b Hb.
  pose proof (Hall b Hb). assert (b <> a) by congruence. lia.
Qed.

(** What [get_available_formats] does on any metadata, whatever the type
    of the heights. *)
Lemma lister_outcome (info : info_dict) :
  let fmts := default [] (info_formats info) in
  let kept := first_occurrences (entry_of <$> filter known_height fmts) in
  (forall e, get_available_formats info = Raise e ->
             e = ValueError /\ exists x, x ∈ kept /\ sort_key x = Raise ValueError)
  /\ (forall out, get_available_formats info = Ok out ->
        out ≡ₚ kept
        /\ NoDup (quality <$> out)
        /\ (length out <= length fmts)%nat
        /\ exists keys, Forall2 (fun k x => sort_key x = Ok k) keys out
                        /\ descending keys).
Proof.
  intros fmts kept. unfold get_available_formats.
  replace (match info_formats info with Some fmts => collect_formats fmts | None => [] end)
    with (collect_formats fmts) by (subst fmts; by destruct (info_formats info)).
  rewrite collect_formats_filter, unique_loop_first_occurrences. fold kept.
  unfold sorted_reverse. split.
  - intros e Hrun. destruct (keys_of sort_key kept) as [kl|e'] eqn:Hkeys; [discriminate|].
    injection Hrun as ->. apply keys_of_raise in Hkeys as (x & Hx & Hkey).
    assert (e = ValueError) as ->.
    { unfold sort_key in Hkey. destruct (py_int _); congruence. }
    eauto.
  - intros out Hrun. destruct (keys_of sort_key kept) as [kl|e'] eqn:Hkeys; [|discriminate].
    injection Hrun as <-. apply keys_of_inv in Hkeys as [Hsnd Hall].
    assert (Hperm : snd <$> sort_desc kl ≡ₚ kept).
    { rewrite <- Hsnd. apply fmap_Permutation, sort_desc_perm. }
    split; [done|]. split; [rewrite Hperm; apply first_occurrences_NoDup|]. split.
    { rewrite Hperm. subst kept. etrans; [apply first_occurrences_length|].
      rewrite length_fmap. apply length_filter. }
    exists (fst <$> sort_desc kl). split.
    + apply Forall2_fmap, Forall_Forall2_diag.
      by rewrite sort_desc_perm.
    + apply (StronglySorted_fmap _ by_key_desc); [done | apply sort_desc_sorted].
Qed.

(** X11. On any metadata, heights of any type included,
    [get_available_formats] raises nothing but [ValueError], and only when
    the label of a kept entry does not read back as an integer.  When it
    returns, the list is a permutation of the first occurrences of the kept
    entries, holds no label twice, is no longer than the list of formats,
    and is in decreasing order of the sort keys. *)
Theorem get_available_formats_any (info : info_dict) :
  let fmts := default [] (info_formats info) in
  let kept := first_occurrences (entry_of <$> filter known_height fmts) in
  (forall e, get_available_formats info = Raise e ->
             e = ValueError /\ exists x, x ∈ kept /\ sort_key x = Raise ValueError)
  /\ (forall out, get_available_formats info = Ok out ->
        out ≡ₚ kept
        /\ NoDup (quality <$> out)
        /\ (length out <= length fmts)%nat
        /\ exists keys, Forall2 (fun k x => sort_key x = Ok k) keys out
                        /\ descending keys).
Proof. apply lister_outcome. Qed.

Lemma get_available_formats_any_witness :
  exists keys,
    Forall2 (fun k x => sort_key x = Ok k) keys
      [entry_example "1080" "full"; entry_example "720" "first"; entry_example "144" "tiny"]
    /\ descending keys.
Proof.
  destruct (proj2 (get_available_formats_any info_example)
              [entry_example "1080" "full"; entry_example "720" "first";
               entry_example "144" "tiny"]) as (_ & _ & _ & Hkeys).
  - vm_compute. reflexivity.
  - exact Hkeys.
Defined.

Lemma first_occurrences_label (l : list format_entry) (x : format_entry) :
  x ∈ l -> exists y, y ∈ first_occurrences l /\ quality y = quality x.
Proof.
  induction l as [|z l IH]; intros Hx; [by apply elem_of_nil in Hx|].
  cbn [first_occurrences]. apply elem_of_cons in Hx as [->|Hx].
  - exists z. split; [left | done].
  - destruct (IH Hx) as (y & Hy & Hq).
    destruct (decide (quality y = quality z)) as [Heq|Hne].
    + exists z. split; [left | congruence].
    + exists y. split; [|done]. right. by apply list_elem_of_filter.
Qed.

(** X12. If the label of any format with a known height does not read
    back as an integer (a height that is [True] or a text without digits,
    for example), [get_available_formats] raises [ValueError], whatever
    else the metadata holds. *)
Theorem get_available_formats_bad_height (info : info_dict)
    (fmts : list (gmap pystr scalar)) (fmt : gmap pystr scalar) :
  info_formats info = Some fmts -> fmt ∈ fmts -> known_height fmt ->
  sort_key (entry_of fmt) = Raise ValueError ->
  get_available_formats info = Raise ValueError.
Proof.
  intros Hfmts Hin Hknown Hbad.
  destruct (get_available_formats info) as [out|e] eqn:Hrun.
  - exfalso.
    apply (proj2 (lister_outcome info)) in Hrun as (Hperm & _ & _ & keys & Hkeys & _).
    rewrite Hfmts in Hperm. cbn [default from_option id] in Hperm.
    assert (Hentry : entry_of fmt ∈ entry_of <$> filter known_height fmts)
      by (by apply list_elem_of_fmap_2, list_elem_of_filter).
    apply first_occurrences_label in Hentry as (x & Hx & Hq).
    rewrite <- Hperm in Hx.
    apply list_elem_of_lookup in Hx as [i Hi].
    destruct (Forall2_lookup_r _ _ _ _ _ Hkeys Hi) as (k & _ & Hk).
    unfold sort_key in Hk, Hbad. rewrite Hq in Hk.
    destruct (py_int _); discriminate.
  - by apply (proj1 (lister_outcome info)) in Hrun as [-> _].
Qed.

Lemma get_available_formats_bad_height_witness :
  get_available_formats
    {| info_fields := ∅;
       info_formats := Some [fmt_example 720 "first";
                             {[ lit "height" := SBool true ]}] |}
  = Raise ValueError.
Proof.
  eapply (get_available_formats_bad_height _ _ {[ lit "height" := SBool true ]}).
  - reflexivity.
  - right. left.
  - reflexivity.
  - reflexivity.
Defined.

(** X13. When the heights are integers or unset, the heights of the
    returned entries are pairwise different and strictly decreasing, and
    each entry carries the label of its height: the order of the result is
    fully determined. *)
Theorem get_available_formats_strict (info : info_dict) :
  Forall int_height (default [] (info_formats info)) ->
  exists out heights,
    get_available_formats info = Ok out
    /\ quality <$> out = label <$> heights
    /\ strictly_descending heights.
Proof.
  intros Htyped.
  assert (Hkept : forall x,
             x ∈ first_occurrences
                   (entry_of <$> filter known_height (default [] (info_formats info))) ->
             exists h, quality x = label h /\ sort_key x = Ok h).
  { intros x Hx.
    apply first_occurrences_subseteq, list_elem_of_fmap in Hx as (fmt & -> & Hfmt).
    apply list_elem_of_filter in Hfmt as [Hknown Hin].
    rewrite Forall_forall in Htyped.
    destruct (entry_of_known fmt (Htyped _ Hin) Hknown) as (h & _ & _ & ? & ?). eauto. }
  destruct (get_available_formats info) as [out|e] eqn:Hrun.
  - apply (proj2 (lister_outcome info)) in Hrun
      as (Hperm & Hnodup & _ & heights & Hkeys & Hsorted).
    exists out, heights. split; [done|].
    assert (Hlabels : quality <$> out = label <$> heights).
    { clear Hsorted Hnodup.
      assert (Hout : forall x, x ∈ out -> exists h, quality x = label h /\ sort_key x = Ok h)
        by (intros x Hx; apply Hkept; by rewrite <- Hperm).
      clear Hperm. induction Hkeys as [|k x ks xs Hk _ IH]; [done|].
      cbn [fmap list_fmap].
      destruct (Hout x) as (h & Hq & Hh); [left|].
      rewrite Hq. replace h with k by congruence. f_equal.
      apply IH. intros y Hy. apply Hout. by right. }
    split; [done|]. apply descending_NoDup; [done|].
    rewrite Hlabels in Hnodup. by apply NoDup_fmap_1 in Hnodup.
  - exfalso. apply (proj1 (lister_outcome info)) in Hrun as (_ & x & Hx & Hkey).
    destruct (Hkept x Hx) as (h & _ & Hh). congruence.
Qed.

Lemma get_available_formats_strict_witness :
  exists out heights,
    get_available_formats info_example = Ok out
    /\ quality <$> out = label <$> heights
    /\ strictly_descending heights.
Proof.
  apply get_available_formats_strict. repeat constructor.
Defined.

(** * Options handed to the extraction library *)

(** X14. The options of a download always hold the output template (the
    temporary path followed by [.%(ext)s]), the format selector of the
    quality and the ffmpeg location; the audio post-processor entry is
    there exactly when the quality is "audio", and there are no other
    keys. *)
Theorem download_ydl_opts_spec (filepath : pystr) (quality : scalar) :
  let ydl_opts := download_ydl_opts filepath quality in
  ydl_opts !! lit "outtmpl" = Some (jstr (filepath ++ lit ".%(ext)s"))
  /\ ydl_opts !! lit "format" = Some (jstr (get_format_selector quality))
  /\ ydl_opts !! lit "ffmpeg_location" = Some (jstr FFMPEG_PATH)
  /\ (is_Some (ydl_opts !! lit "postprocessors") <-> quality = SStr (lit "audio"))
  /\ forall key, is_Some (ydl_opts !! key) ->
                 key ∈ [lit "outtmpl"; lit "format"; lit "ffmpeg_location";
                        lit "postprocessors"].
Proof.
  intros ydl_opts. subst ydl_opts. unfold download_ydl_opts.
  destruct (eq_str quality (lit "audio")) eqn:Haudio.
  - apply eq_str_true in Haudio.
    split; [rewrite lookup_insert_ne by done; apply lookup_insert_eq|].
    split; [rewrite !lookup_insert_ne by done; apply lookup_insert_eq|].
    split; [rewrite !lookup_insert_ne by done; apply lookup_singleton_eq|].
    split; [by rewrite lookup_insert_eq|].
    intros key.
    rewrite !lookup_insert_is_Some, lookup_singleton_is_Some, !elem_of_cons.
    intuition congruence.
  - split; [apply lookup_insert_eq|].
    split; [rewrite !lookup_insert_ne by done; apply lookup_insert_eq|].
    split; [rewrite !lookup_insert_ne by done; apply lookup_singleton_eq|].
    split.
    + rewrite !lookup_insert_ne, lookup_singleton_ne by done.
      split; [by intros [? ?]|]. intros Hq. apply eq_str_true in Hq. congruence.
    + intros key.
      rewrite !lookup_insert_is_Some, lookup_singleton_is_Some, !elem_of_cons.
      intuition congruence.
Qed.

Lemma download_ydl_opts_spec_witness :
  is_Some (download_ydl_opts (lit "D:\AllVideoSaverTemp\allvideosaver_0")
             (SStr (lit "audio")) !! lit "postprocessors").
Proof.
  by apply (proj2 (proj1 (proj2 (proj2 (proj2
              (download_ydl_opts_spec (lit "D:\AllVideoSaverTemp\allvideosaver_0")
                 (SStr (lit "audio")))))))).
Defined.

(** * The default quality *)

(** C10. A download request without a ['quality'] entry is handled exactly
    as the same request with the quality "720".  With a usable ['url'] the
    extraction library is called, first of all, with the selector bounded
    by the height 720 as its format and without an audio post-processor;
    when the library and [send_file] succeed the answer is the prepared
    file itself with the MIME type [video/mp4] and a name that ends in
    [_720p.mp4].  No call carries the combined best-quality fall-back. *)
Theorem default_quality_720 (w : env) (d : gmap pystr scalar) :
  d !! lit "quality" = None ->
  let filepath := os_path_join w DOWNLOAD_FOLDER (lit "allvideosaver_" ++ uuid4_hex w) in
  let ydl_opts := download_ydl_opts filepath (SStr (lit "720")) in
  download_video w (VDict d)
  = download_video w (VDict (<[lit "quality" := SStr (lit "720")]> d))
  /\ ydl_opts !! lit "format" = Some (jstr (bounded_height (lit "720")))
  /\ ydl_opts !! lit "postprocessors" = None
  /\ (forall url,
        valid_url (VDict d) url ->
        exists rest,
          fst (download_video w (VDict d)) = Extract ydl_opts url true :: rest)
  /\ (forall url info prepared title,
        valid_url (VDict d) url ->
        extract_info w ydl_opts url true = Ok info ->
        prepare_filename w ydl_opts info = Ok prepared ->
        info_fields info !! lit "title" = Some (SStr title) ->
        send_file w prepared = Ok tt ->
        download_video w (VDict d)
        = ([Extract ydl_opts url true; PrepareFilename ydl_opts;
            Log INFO (lit "Downloaded: " ++ title);
            ThreadStart prepared 60; SendFile prepared],
           Ok (Attachment prepared (sanitize_filename title ++ lit "_720p.mp4")
                 (lit "video/mp4"))))
  /\ (forall o url download,
        Extract o url download ∈ fst (download_video w (VDict d)) ->
        o !! lit "format" = Some (jstr (bounded_height (lit "720")))
        /\ o !! lit "format" <> Some (jstr best_video_audio))
  /\ (forall trace path name mimetype,
        download_video w (VDict d) = (trace, Ok (Attachment path name mimetype)) ->
        mimetype = lit "video/mp4"
        /\ exists title, name = sanitize_filename title ++ lit "_720p.mp4").
Proof.
  intros Hquality filepath ydl_opts.
  assert (Hformat : ydl_opts !! lit "format" = Some (jstr (bounded_height (lit "720"))))
    by (subst ydl_opts; by rewrite download_ydl_opts_format).
  split; [|split; [exact Hformat|split; [|split; [|split; [|split]]]]].
  - rewrite !download_video_dict.
    rewrite lookup_insert_ne by done. rewrite lookup_insert_eq, Hquality. reflexivity.
  - subst ydl_opts. unfold download_ydl_opts.
    change (eq_str (SStr (lit "720")) (lit "audio")) with false. cbv iota.
    rewrite !lookup_insert_ne by done. by rewrite lookup_singleton_ne.
  - intros url (d' & s & [= <-] & Hurl & <- & Hne).
    rewrite download_video_dict, Hurl, bool_decide_eq_false_2, Hquality by done.
    cbv zeta. cbn [default from_option id]. fold filepath ydl_opts.
    destruct (download_video_run_shape w ydl_opts (strip s) (SStr (lit "720")))
      as [(e & ->)|[(e & ->)|[(m & p & e & ->)|(m & p & n & mt & ->)]]]; by eexists.
  - intros url info prepared title (d' & s & [= <-] & Hurl & <- & Hne)
      Hinfo Hprepared Htitle Hsend.
    rewrite download_video_dict, Hurl, bool_decide_eq_false_2, Hquality by done.
    cbv zeta. cbn [default from_option id]. fold filepath ydl_opts.
    unfold download_video_try, ydl_extract_info, ydl_prepare_filename, info_getitem.
    rewrite Hinfo. monad_step. rewrite Hprepared. monad_step. rewrite Htitle.
    change (eq_str (SStr (lit "720")) (lit "audio")) with false.
    monad_step. rewrite Hsend. reflexivity.
  - intros o url download Hev.
    destruct (download_video_cases w (VDict d))
      as [Hnil|(d' & url' & [= <-] & _ & Hrun)].
    { rewrite Hnil in Hev. by apply elem_of_nil in Hev. }
    rewrite Hrun, try_except_trace, Hquality in Hev.
    apply elem_of_app in Hev as [Hev|Hev].
    + cbn [default from_option id] in Hev.
      match type of Hev with
      | _ ∈ fst (download_video_try _ ?o' ?u ?q) =>
          pose proof (download_video_try_events w o' u q) as Hall
      end.
      rewrite Forall_forall in Hall. apply Hall in Hev as (-> & _ & _).
      fold filepath ydl_opts. rewrite Hformat. split; [reflexivity | discriminate].
    + destruct (snd _); [by apply elem_of_nil in Hev|].
      cbn in Hev. apply list_elem_of_singleton in Hev. discriminate.
  - intros trace path name mimetype Hrun.
    apply download_video_inv in Hrun as (d' & url & [= <-] & _ & Hrun).
    rewrite Hquality in Hrun.
    apply download_video_try_inv in Hrun
      as (info & prepared & title & _ & _ & _ & _ & [= _ -> ->] & _).
    split; [reflexivity|]. by exists title.
Qed.

Lemma default_quality_720_witness :
  download_video sample_env video_request
  = ([Extract (download_ydl_opts
                 (lit "D:\AllVideoSaverTemp\allvideosaver_0123456789abcdef0123456789abcdef")
                 (SStr (lit "720"))) (lit "http://x/") true;
      PrepareFilename (download_ydl_opts
                 (lit "D:\AllVideoSaverTemp\allvideosaver_0123456789abcdef0123456789abcdef")
                 (SStr (lit "720")));
      Log INFO (lit "Downloaded: My: clip?");
      ThreadStart
        (lit "D:\AllVideoSaverTemp\allvideosaver_0123456789abcdef0123456789abcdef.webm") 60;
      SendFile
        (lit "D:\AllVideoSaverTemp\allvideosaver_0123456789abcdef0123456789abcdef.webm")],
     Ok (Attachment
           (lit "D:\AllVideoSaverTemp\allvideosaver_0123456789abcdef0123456789abcdef.webm")
           (lit "My_ clip__720p.mp4") (lit "video/mp4"))).
Proof.
  pose proof (default_quality_720 sample_env
                (list_to_map [(lit "url", SStr (lit "http://x/"))]) eq_refl)
    as (_ & _ & _ & _ & Hrun & _).
  apply (Hrun (lit "http://x/") sample_info _ (lit "My: clip?")); try reflexivity.
  eexists _, (lit "http://x/"). by repeat split.
Defined.
